(** * SolidWorks batch data extractor: a shallow embedding of [SW_DATA.py]

    The script drives a running SolidWorks instance through COM and
    collects one result row (a Python [dict]) per selected file.  The
    embedding below follows [src/SW_DATA.py] function by function:

    - Python values that end up in a row are a small tagged union;
      a row is a finite map from column names to values;
    - Python [float]s are IEEE binary64 numbers, the primitive floats of
      Rocq; [round] and [sorted] are modelled on them;
    - every COM call is an oracle that either returns or raises; the COM
      objects are records of such oracles;
    - code that mutates a row or local variables inside [try]/[except]
      runs in a state-and-exception monad in which the state written
      before an exception survives it, as in Python. *)

From Stdlib Require Import ZArith Floats Ascii String Sorted.
From stdpp Require Import base option list strings gmap.

#[local] Set Warnings "-inexact-float".

Local Open Scope Z_scope.
Local Open Scope string_scope.

(** ** Python strings (ASCII text) *)

Module PyStr.

(** [str.isspace] on the ASCII range: TAB..CR, FS..US and the blank. *)
Definition is_space (c : ascii) : bool :=
  let n := N_of_ascii c in
  ((9 <=? n) && (n <=? 13) || (28 <=? n) && (n <=? 32))%N.

Fixpoint lstrip (s : string) : string :=
  match s with
  | String c s' => if is_space c then lstrip s' else s
  | EmptyString => EmptyString
  end.

Fixpoint rstrip (s : string) : string :=
  match s with
  | String c s' =>
      match rstrip s' with
      | EmptyString => if is_space c then EmptyString else String c EmptyString
      | t => String c t
      end
  | EmptyString => EmptyString
  end.

(** [s.strip()] *)
Definition strip (s : string) : string := rstrip (lstrip s).

(** Truth value of a string: non-empty. *)
Definition truthy (s : string) : bool :=
  match s with EmptyString => false | String _ _ => true end.

(** [sub in s] *)
Fixpoint contains (sub s : string) : bool :=
  String.prefix sub s
  || match s with
     | String _ s' => contains sub s'
     | EmptyString => false
     end.

Definition lower_ascii (c : ascii) : ascii :=
  let n := N_of_ascii c in
  if ((65 <=? n) && (n <=? 90))%N then ascii_of_N (n + 32) else c.

(** [s.lower()] *)
Fixpoint lower (s : string) : string :=
  match s with
  | String c s' => String (lower_ascii c) (lower s')
  | EmptyString => EmptyString
  end.

(** [s.rfind(c)]: the highest index of [c], or -1. *)
Fixpoint rfind_from (c : ascii) (s : string) (i : Z) : Z :=
  match s with
  | String a s' =>
      let r := rfind_from c s' (i + 1) in
      if (0 <=? r)%Z then r else if Ascii.eqb a c then i else -1
  | EmptyString => -1
  end.

Definition rfind (c : ascii) (s : string) : Z := rfind_from c s 0.

(** Slices [s[:i]] and [s[i:]] for [0 <= i]. *)
Definition slice_to (s : string) (i : Z) : string :=
  String.substring 0 (Z.to_nat i) s.

Definition slice_from (s : string) (i : Z) : string :=
  String.substring (Z.to_nat i) (String.length s - Z.to_nat i) s.

End PyStr.

(** ** [os.path] on Windows ([ntpath]) *)

Module OsPath.
Import PyStr.

Definition sep : ascii := "\"%char.
Definition altsep : ascii := "/"%char.
Definition extsep : ascii := "."%char.

(** The [while filenameIndex < dotIndex] loop of [genericpath._splitext]:
    [true] as soon as a character other than the dot is met; [n] counts
    the iterations that remain. *)
Fixpoint skip_leading_dots (p : string) (filenameIndex n : nat) : bool :=
  match n with
  | O => false
  | S n' =>
      match String.get filenameIndex p with
      | Some c =>
          if Ascii.eqb c extsep then skip_leading_dots p (S filenameIndex) n'
          else true
      | None => true
      end
  end.

(** [os.path.splitext(p)] *)
Definition splitext (p : string) : string * string :=
  let sepIndex := Z.max (rfind sep p) (rfind altsep p) in
  let dotIndex := rfind extsep p in
  if (sepIndex <? dotIndex)%Z
     && skip_leading_dots p (Z.to_nat (sepIndex + 1))
                          (Z.to_nat (dotIndex - (sepIndex + 1)))
  then (slice_to p dotIndex, slice_from p dotIndex)
  else (p, EmptyString).

(** [os.path.splitdrive(p)] for drive-letter paths.  A UNC prefix
    ([\\server\share]) is left on the path: this agrees with [ntpath]
    on [basename] for every path that has a component after the
    share. *)
Definition splitdrive (p : string) : string * string :=
  match String.get 1 p with
  | Some ":"%char => (slice_to p 2, slice_from p 2)
  | _ => (EmptyString, p)
  end.

(** [os.path.basename(p)]: what follows the last separator. *)
Definition basename (p : string) : string :=
  let p' := snd (splitdrive p) in
  slice_from p' (Z.max (rfind sep p') (rfind altsep p') + 1).

End OsPath.

(** ** Python floats *)

Module PyFloat.

Local Open Scope float_scope.

(** Round-half-even of the rational [num / den], [0 < den]. *)
Definition round_half_even (num den : Z) : Z :=
  let q := (num / den)%Z in
  let r := (num mod den)%Z in
  match (2 * r ?= den)%Z with
  | Lt => q
  | Gt => (q + 1)%Z
  | Eq => if Z.even q then q else (q + 1)%Z
  end.

(** [round(x, ndigits)] for a float and [0 <= ndigits].  CPython prints
    [x] correctly rounded (ties to even, on the exact binary value) to
    [ndigits] decimals and reads the decimal string back: the result is
    the double nearest to the rounded decimal.  NaN and the infinities
    round to themselves, and a signed zero keeps its sign. *)
Definition round (x : float) (ndigits : N) : float :=
  if (323 <? ndigits)%N then x else
  match Prim2SF x with
  | S754_finite s m e =>
      let p := (10 ^ Z.of_N ndigits)%Z in
      let num := (Z.pos m * 2 ^ Z.max e 0 * p)%Z in
      let den := (2 ^ Z.max (- e) 0)%Z in
      match round_half_even num den with
      | Z.pos n =>
          SF2Prim (SFdiv prec emax (S754_finite s n 0)
                                   (S754_finite false (Z.to_pos p) 0))
      | _ => SF2Prim (S754_zero s)
      end
  | _ => x
  end.

(** One step of a stable insertion sort by [<]: [x] goes after every
    element that is not greater than it. *)
Fixpoint insort (x : float) (l : list float) : list float :=
  match l with
  | [] => [x]
  | y :: l' => if x <? y then x :: y :: l' else y :: insort x l'
  end.

(** [sorted(l)] on floats: the stable ascending sort.  On lists without
    NaN the order [<] is total and every stable sort computes this
    list. *)
Definition sorted (l : list float) : list float :=
  fold_left (fun acc x => insort x acc) l [].

End PyFloat.

(** ** Values, rows, exceptions *)

(** What the script stores in a row: strings, floats, the integer [0]
    used for zero-filling, and booleans. *)
Inductive value : Type :=
  | VStr (s : string)
  | VFloat (f : float)
  | VInt (z : Z)
  | VBool (b : bool).

(** A result row is a Python [dict] keyed by column name. *)
Abbreviation Row := (gmap string value).

(** The outcome of a call that may raise; [Raise] carries [str(e)]. *)
Inductive res (A : Type) : Type :=
  | Ok (a : A)
  | Raise (e : string).
Arguments Ok {A} a.
Arguments Raise {A} e.

#[export] Instance res_ret : MRet res := fun A a => Ok a.
#[export] Instance res_bind : MBind res := fun A B f m =>
  match m with
  | Ok a => f a
  | Raise e => Raise e
  end.

(** Attribute access on a value that may be [None]. *)
Definition deref {A} (o : option A) : res A :=
  match o with
  | Some a => Ok a
  | None => Raise "'NoneType' object has no attribute"
  end.

(** [t[i]] on a tuple. *)
Definition getitem {A} (t : list A) (i : nat) : res A :=
  match t !! i with
  | Some x => Ok x
  | None => Raise "tuple index out of range"
  end.

(** Statements that mutate a state [S] and may raise.  The state reached
    when the exception is raised is kept. *)
Definition Py (S A : Type) : Type := S -> S * res A.

#[export] Instance Py_ret {S} : MRet (Py S) := fun A a s => (s, Ok a).
#[export] Instance Py_bind {S} : MBind (Py S) := fun A B f m s =>
  match m s with
  | (s', Ok a) => f a s'
  | (s', Raise e) => (s', Raise e)
  end.

(** A call into COM: no effect on the Python state. *)
Definition call {S A} (r : res A) : Py S A := fun s => (s, r).

(** [try: body  except: handler] *)
Definition try_except {S A} (body handler : Py S A) : Py S A := fun s =>
  match body s with
  | (s', Ok a) => (s', Ok a)
  | (s', Raise _) => handler s'
  end.

(** [row[k] = v] *)
Definition setitem (k : string) (v : value) : Py Row unit :=
  fun row => (<[k := v]> row, Ok tt).

(** ** The COM objects the script talks to

    Each field is the outcome of one call or attribute access.  A document
    does not change while it is read, so an access gives the same outcome
    each time it is made.  The results have the types of the SolidWorks
    interface: names are strings, readings and box corners are doubles.
    [pythoncom.CoInitialize] and the two by-reference [VARIANT]s of the
    open call return nothing the script looks at and are left out. *)

(** A raw COM pointer: [win32com.client.dynamic.Dispatch] wraps it into a
    late-bound object, or raises. *)
Record com (A : Type) : Type := { Dispatch : res A }.
Arguments Dispatch {A} _.

Record CustomPropertyManagerT : Type := {
  (** [Get4(name, use_cached, "", "")]: [(status, value, resolved value)] *)
  Get4 : string -> bool -> string -> string -> res (Z * string * string)
}.

Record ConfigurationDynT : Type := {
  cfg_GetBox : res (option (list float))
}.

Record ConfigurationT : Type := {
  cfg_CustomPropertyManager : res CustomPropertyManagerT;
  cfg_Name : res string;
  cfg_Dispatch : res ConfigurationDynT
}.

(** The readings of a mass property object depend on its
    [UseSystemUnits] flag: [false] selects SI units. *)
Record MassPropertyT : Type := {
  set_UseSystemUnits : bool -> res unit;
  UpdateMassProperties : res unit;
  Mass : bool -> res float;
  Volume : bool -> res float;
  SurfaceArea : bool -> res float
}.

Record ExtensionT : Type := {
  ext_CustomPropertyManager : string -> res CustomPropertyManagerT;
  CreateMassProperty : res MassPropertyT
}.

Record FeatureDataT : Type := {
  Thickness : res float
}.

Record FeatureT : Type := {
  (** [f.GetTypeName2], called when it is callable *)
  GetTypeName2 : res string;
  (** [f.GetDefinition()] *)
  GetDefinition_call : res (option (com FeatureDataT));
  (** [f.GetDefinition] read as an attribute *)
  GetDefinition_attr : res (option (com FeatureDataT))
}.

Record FeatureManagerT : Type := {
  GetFeatures : bool -> res (option (list (com FeatureT)))
}.

Record ModelT : Type := {
  GetActiveConfiguration : res (option ConfigurationT);
  Extension : res ExtensionT;
  (** [(database, material name)] *)
  GetMaterialPropertyName2 : string -> string -> string -> res (string * string);
  (** [model.GetMassProperties], called when it is callable *)
  GetMassProperties : res (option (list float));
  FeatureManager : res (com FeatureManagerT);
  GetPartBox : bool -> res (option (list float));
  GetBox : Z -> res (option (list float));
  GetTitle_call : res string;
  GetTitle_attr : res string
}.

Record SldWorksT : Type := {
  DocumentVisible : bool -> Z -> res unit;
  (** [OpenDoc6(path, type, options, configuration, errors, warnings)]:
      a document, or a falsy handle *)
  OpenDoc6 : string -> Z -> Z -> string -> res (option (com ModelT));
  CloseDoc : string -> res unit
}.

(** The machine the script runs on:
    [win32com.client.GetActiveObject("SldWorks.Application")]. *)
Record Env : Type := {
  GetActiveObject : res SldWorksT
}.

(** ** The helper functions of the script *)

Import PyStr OsPath PyFloat.

(** [get_custom_property(model, prop_name)]: the body of the [try]
    yields [Some v] when it returns [v] and [None] when it falls off its
    end; every exception is swallowed. *)
Definition get_custom_property (model : ModelT) (prop_name : string) : string :=
  let body : res (option string) :=
    (* 1. Try Active Configuration *)
    config ← GetActiveConfiguration model;
    cus_prop_mgr ← deref config ≫= cfg_CustomPropertyManager;
    '(_, _, resolved_val) ← Get4 cus_prop_mgr prop_name false "" "";
    if truthy (strip resolved_val) then Ok (Some resolved_val) else
    (* 2. Try General "Custom" Tab *)
    cus_prop_mgr ← Extension model ≫= (fun ext => ext_CustomPropertyManager ext "");
    '(_, _, resolved_val) ← Get4 cus_prop_mgr prop_name false "" "";
    if truthy (strip resolved_val) then Ok (Some resolved_val) else
    Ok None
  in
  match body with
  | Ok (Some v) => v
  | _ => ""
  end.

(** The second strategy of [get_material]: the material the API binds to
    the active configuration. *)
Definition native_material (model : ModelT) : res (option string) :=
  config ← GetActiveConfiguration model;
  config_name ← deref config ≫= cfg_Name;
  '(_, mat_name) ← GetMaterialPropertyName2 model config_name "" "";
  if truthy mat_name then Ok (Some mat_name) else Ok None.

(** [get_material(model, doc_type)] *)
Definition get_material (model : ModelT) (doc_type : Z) : string :=
  if negb (doc_type =? 1)%Z then "N/A (Assembly)" else
  let body : res (option string) :=
    (* 1. Try custom property "Material" *)
    let mat_prop := get_custom_property model "Material" in
    if truthy mat_prop && negb (contains "SW-Material" mat_prop)
    then Ok (Some mat_prop)
    else
      (* 2. Use API to get internal material *)
      native_material model
  in
  match body with
  | Ok (Some v) => v
  | _ => "Not Specified"
  end.

(** ** The extraction blocks of [process_files], each a statement on the
    row under construction *)

(** 1. Properties *)
Definition props_block (model : ModelT) (doc_type : Z) (get_props : bool)
  : Py Row unit :=
  (if get_props then
     setitem "Part Number" (VStr (get_custom_property model "Part Number"));;
     setitem "Description" (VStr (get_custom_property model "Description"));;
     setitem "Revision" (VStr (get_custom_property model "Revision"))
   else mret tt);;
  if get_props && (doc_type =? 1)%Z
  then setitem "Material" (VStr (get_material model doc_type))
  else setitem "Material" (VStr "").

(** 2. Mass properties, primary path (SI readings converted to g, mm^3
    and mm^2) *)
Definition mass_primary (model : ModelT) : Py Row unit :=
  mass_prop ← call (Extension model ≫= CreateMassProperty);
  call (set_UseSystemUnits mass_prop false);;
  call (UpdateMassProperties mass_prop);;
  m ← call (Mass mass_prop false);
  setitem "Mass (g)" (VFloat (round (m * 1000) 2));;
  v ← call (Volume mass_prop false);
  setitem "Volume (mm^3)" (VFloat (round (v * 1000000000) 2));;
  a ← call (SurfaceArea mass_prop false);
  setitem "Surface Area (mm^2)" (VFloat (round (a * 1000000) 2)).

Definition mass_zero_fill : Py Row unit :=
  setitem "Mass (g)" (VInt 0);;
  setitem "Volume (mm^3)" (VInt 0);;
  setitem "Surface Area (mm^2)" (VInt 0).

(** Legacy fallback: a positional array *)
Definition mass_legacy (model : ModelT) : Py Row unit :=
  vals ← call (GetMassProperties model);
  match vals with
  | Some ((_ :: _) as vals) =>
      v ← call (getitem vals 3);
      setitem "Volume (mm^3)" (VFloat (round (v * 1000000000) 2));;
      a ← call (getitem vals 4);
      setitem "Surface Area (mm^2)" (VFloat (round (a * 1000000) 2));;
      m ← call (getitem vals 5);
      setitem "Mass (g)" (VFloat (round (m * 1000) 2))
  | _ => mass_zero_fill
  end.

Definition mass_block (model : ModelT) : Py Row unit :=
  try_except (mass_primary model)
             (try_except (mass_legacy model) mass_zero_fill).

(** 3. Sheet metal.  The [try] body works on the local variables
    [(is_sm, thk)]. *)
Definition set_is_sm (b : bool) : Py (bool * float) unit :=
  fun '(_, thk) => ((b, thk), Ok tt).

Definition set_thk (t : float) : Py (bool * float) unit :=
  fun '(is_sm, _) => ((is_sm, t), Ok tt).

(** The [for f_obj in all_feats] loop; it leaves at the first feature
    whose type name is [SheetMetal]. *)
Fixpoint scan_features (all_feats : list (com FeatureT)) : Py (bool * float) unit :=
  match all_feats with
  | [] => mret tt
  | f_obj :: rest =>
      f_dyn ← call (Dispatch f_obj);
      tn ← try_except (call (GetTypeName2 f_dyn)) (mret "");
      if String.eqb tn "SheetMetal" then
        set_is_sm true;;
        fd ← try_except (call (GetDefinition_call f_dyn))
                        (call (GetDefinition_attr f_dyn));
        match fd with
        | Some fd =>
            fd_dyn ← call (Dispatch fd);
            thk ← call (Thickness fd_dyn);
            set_thk thk
        | None => mret tt
        end
        (* break *)
      else scan_features rest
  end.

Definition sheet_metal_try (model : ModelT) : Py (bool * float) unit :=
  fm_dyn ← call (FeatureManager model ≫= Dispatch);
  all_feats ← call (GetFeatures fm_dyn false);
  match all_feats with
  | Some ((_ :: _) as all_feats) => scan_features all_feats
  | _ => mret tt
  end.

Definition sheet_metal_block (model : ModelT) : Py Row unit :=
  let '((is_sm, thk), _) :=
    try_except (sheet_metal_try model) (mret tt) (false, 0%float) in
  setitem "Is Sheet Metal" (VBool is_sm);;
  setitem "Thickness (mm)"
    (if is_sm then VFloat (round (thk * 1000) 3) else VInt 0).

(** 4. Dimensions.  [get_box] is the part of the [try] body that fetches
    the bounding box. *)
Definition get_box (model : ModelT) (doc_type : Z) : res (option (list float)) :=
  if (doc_type =? 1)%Z then
    match GetPartBox model true with
    | Ok box => Ok box
    | Raise _ =>
        conf ← GetActiveConfiguration model;
        match conf with
        | Some conf => c_d ← cfg_Dispatch conf; cfg_GetBox c_d
        | None => Ok None
        end
    end
  else GetBox model 0.

(** [abs(box[j] - box[i])] *)
Definition extent (box : list float) (j i : nat) : res float :=
  hi ← getitem box j;
  lo ← getitem box i;
  Ok (abs (hi - lo))%float.

(** The body of the [try] *)
Definition dims_try (model : ModelT) (doc_type : Z) : Py Row unit :=
  box ← call (get_box model doc_type);
  match box with
  | Some ((_ :: _) as box) =>
      dx ← call (extent box 3 0);
      dy ← call (extent box 4 1);
      dz ← call (extent box 5 2);
      let dims := sorted [dx; dy; dz] in
      l ← call (getitem dims 2);
      setitem "Length (mm)" (VFloat (round (l * 1000) 2));;
      w ← call (getitem dims 1);
      setitem "Width (mm)" (VFloat (round (w * 1000) 2));;
      h ← call (getitem dims 0);
      setitem "Height (mm)" (VFloat (round (h * 1000) 2))
  | _ => mret tt
  end.

Definition dims_block (model : ModelT) (doc_type : Z) : Py Row unit :=
  try_except (dims_try model doc_type) (mret tt).

(** The four option flags, named as the parameters of [process_files]. *)
Record Options : Type := {
  get_mass : bool;
  get_dims : bool;
  get_sm : bool;
  get_props : bool
}.

(** The row literal and the statements between it and the [# Close]
    comment. *)
Definition new_row (file_name file_path : string) : Row :=
  <["Path" := VStr file_path]>
    (<["Status" := VStr "Success"]>
       (<["File Name" := VStr file_name]> ∅)).

Definition extract (model : ModelT) (doc_type : Z) (o : Options) : Py Row unit :=
  props_block model doc_type (get_props o);;
  (if get_mass o then mass_block model else mret tt);;
  (if get_sm o && (doc_type =? 1)%Z then sheet_metal_block model else mret tt);;
  (if get_dims o then dims_block model doc_type else mret tt).

(** ** The batch loop *)

(** What the user sees: the calls on the Streamlit widgets, in order. *)
Inductive ui_event : Type :=
  (** [st.progress(0)] and [progress_bar.progress(num / den)] *)
  | UiProgress (num den : nat)
  (** [status_text.text(f"Processing ({i}/{n}): {file_name}")] *)
  | UiStatus (i n : nat) (file_name : string)
  (** [st.error(msg)] *)
  | UiError (msg : string)
  (** [status_text.success(msg)] *)
  | UiSuccess (msg : string)
  (** [progress_bar.empty()] *)
  | UiProgressEmpty.

(** The mutable state of [process_files]: the list it returns and the
    page it writes to. *)
Record State : Type := {
  results_list : list Row;
  ui : list ui_event
}.

(** [results_list.append(row)] *)
Definition append (row : Row) : Py State unit := fun st =>
  ({| results_list := results_list st ++ [row]; ui := ui st |}, Ok tt).

Definition show (e : ui_event) : Py State unit := fun st =>
  ({| results_list := results_list st; ui := ui st ++ [e] |}, Ok tt).

(** Statements on a row, run inside the loop on the row [row]; the
    result is the row they leave. *)
Definition on_row (c : Py Row unit) (row : Row) : Py State Row := fun st =>
  match c row with
  | (row', Ok _) => (st, Ok row')
  | (_, Raise e) => (st, Raise e)
  end.

(** [try: body  except Exception as e: handler] *)
Definition try_except_as {S A} (body : Py S A) (handler : string -> Py S A)
  : Py S A := fun s =>
  match body s with
  | (s', Ok a) => (s', Ok a)
  | (s', Raise e) => handler e s'
  end.

(** [ext = os.path.splitext(file_path)[1].lower()] and
    [doc_type = 1 if ext == ".sldprt" else 2] *)
Definition doc_type_of (file_path : string) : Z :=
  let ext := lower (snd (splitext file_path)) in
  if String.eqb ext ".sldprt" then 1 else 2.

Definition failed_row (file_name : string) : Row :=
  <["Status" := VStr "Failed to Open"]> (<["File Name" := VStr file_name]> ∅).

(** The body of [for i, file_path in enumerate(file_list)]; [n] is
    [len(file_list)]. *)
Definition loop_body (swApp : SldWorksT) (o : Options) (n i : nat)
    (file_path : string) : Py State unit :=
  let file_name := basename file_path in
  show (UiStatus (i + 1) n file_name);;
  show (UiProgress (i + 1) n);;
  (* --- OPEN FILE --- *)
  let doc_type := doc_type_of file_path in
  call (DocumentVisible swApp false doc_type);;
  raw_model ← call (OpenDoc6 swApp file_path doc_type 3 "");
  match raw_model with
  | None => append (failed_row file_name) (* continue *)
  | Some raw_model =>
      model ← call (Dispatch raw_model);
      (* --- EXTRACT DATA --- *)
      row ← on_row (extract model doc_type o) (new_row file_name file_path);
      (* Close *)
      title ← try_except (call (GetTitle_call model)) (call (GetTitle_attr model));
      call (CloseDoc swApp title);;
      append row;;
      call (DocumentVisible swApp true doc_type)
  end.

Fixpoint for_each (body : nat -> string -> Py State unit) (i : nat)
    (file_list : list string) : Py State unit :=
  match file_list with
  | [] => mret tt
  | file_path :: rest => body i file_path;; for_each body (S i) rest
  end.

(** The outer [try] of [process_files], entered once SolidWorks has
    answered. *)
Definition batch (swApp : SldWorksT) (o : Options) (file_list : list string)
  : Py State unit :=
  try_except_as
    (show (UiProgress 0 1);;
     for_each (loop_body swApp o (length file_list)) 0 file_list;;
     show (UiSuccess "Batch Processing Complete!");;
     show UiProgressEmpty)
    (fun e =>
       show (UiError ("Critical Error: " ++ e));;
       try_except
         (call (DocumentVisible swApp true 1);;
          call (DocumentVisible swApp true 2))
         (mret tt)).

(** [process_files(file_list, get_mass, get_dims, get_sm, get_props)]:
    the list it returns and what it has written to the page. *)
Definition process_files (env : Env) (file_list : list string) (o : Options)
  : list Row * list ui_event :=
  match GetActiveObject env with
  | Raise _ => ([], [UiError "SolidWorks is not running. Please open it first."])
  | Ok swApp =>
      let st := fst (batch swApp o file_list {| results_list := []; ui := [] |}) in
      (results_list st, ui st)
  end.

(** ** The result table of the front end *)

(** The preferred order of the columns. *)
Definition desired_order : list string :=
  ["File Name"; "Part Number"; "Description"; "Revision"; "Material";
   "Mass (g)"; "Volume (mm^3)"; "Surface Area (mm^2)";
   "Length (mm)"; "Width (mm)"; "Height (mm)";
   "Is Sheet Metal"; "Thickness (mm)"; "Status"].

(** [cols = [c for c in desired_order if c in df.columns]
           + [c for c in df.columns if c not in desired_order]] *)
Definition order_columns (columns : list string) : list string :=
  (filter (fun c => c ∈ columns) desired_order
   ++ filter (fun c => c ∉ desired_order) columns)%list.

(** ** Vocabulary of the properties *)

(** [preserves k c]: running [c] leaves column [k] as it was, whether [c]
    returns or raises. *)
Definition preserves {A} (k : string) (c : Py Row A) : Prop :=
  forall row : Row, (c row).1 !! k = row !! k.

(** [never_raises c]: whatever the state, [c] ends without an
    exception. *)
Definition never_raises {S A} (c : Py S A) : Prop :=
  forall s : S, exists a : A, (c s).2 = Ok a.

(** The columns the four blocks write. *)
Definition props_keys : list string :=
  ["Part Number"; "Description"; "Revision"; "Material"].
Definition mass_keys : list string :=
  ["Mass (g)"; "Volume (mm^3)"; "Surface Area (mm^2)"].
Definition sheet_metal_keys : list string :=
  ["Is Sheet Metal"; "Thickness (mm)"].
Definition dims_keys : list string :=
  ["Length (mm)"; "Width (mm)"; "Height (mm)"].

(** The record the loop files for [file_path]: the two-field record of a
    failed open, or the row the extraction blocks leave for some
    document. *)
Definition record_for (o : Options) (file_path : string) (row : Row) : Prop :=
  row = failed_row (basename file_path) \/
  exists model : ModelT,
    extract model (doc_type_of file_path) o
            (new_row (basename file_path) file_path) = (row, Ok tt).

(** The order of floats, and "is a number". *)
Definition float_le (a b : float) : Prop := (a <=? b)%float = true.
Definition not_nan (a : float) : Prop := is_nan a = false.

(** The options [o] with the dimensions switched off. *)
Definition without_dims (o : Options) : Options :=
  {| get_mass := get_mass o; get_dims := false;
     get_sm := get_sm o; get_props := get_props o |}.

(** The feature scan goes past a feature when it can wrap it and its
    type name is not [SheetMetal] (an unreadable type name counts as
    the empty name). *)
Definition passed_over (f_obj : com FeatureT) : Prop :=
  exists f_dyn, Dispatch f_obj = Ok f_dyn /\ GetTypeName2 f_dyn <> Ok "SheetMetal".

(** The scan of [all_feats] reaches a feature whose type name is
    [SheetMetal]: it goes past the features before it. *)
Definition reaches_sheet_metal (all_feats : list (com FeatureT)) : Prop :=
  exists pre f_obj f_dyn post,
    all_feats = (pre ++ f_obj :: post)%list /\
    Forall passed_over pre /\
    Dispatch f_obj = Ok f_dyn /\ GetTypeName2 f_dyn = Ok "SheetMetal".

(** The inspection of [model] gets at its feature list and reaches a
    [SheetMetal] feature in it. *)
Definition finds_sheet_metal (model : ModelT) : Prop :=
  exists fm fm_dyn all_feats,
    FeatureManager model = Ok fm /\ Dispatch fm = Ok fm_dyn /\
    GetFeatures fm_dyn false = Ok (Some all_feats) /\
    reaches_sheet_metal all_feats.




(** The progress bar is given a fraction between 0 and 1. *)
Definition progress_in_range (e : ui_event) : Prop :=
  match e with
  | UiProgress num den => (0 < den)%nat /\ (num <= den)%nat
  | _ => True
  end.

(** What a turn of the loop over [n] files shows: a status line and a
    progress step, numbered from 1 to [n]. *)
Definition loop_event (n : nat) (e : ui_event) : Prop :=
  match e with
  | UiStatus i n' _ => n' = n /\ (1 <= i <= n)%nat
  | UiProgress num den => den = n /\ (1 <= num <= n)%nat
  | _ => False
  end.

(** The messages passed to [st.error]. *)
Definition errors (log : list ui_event) : list string :=
  omap (fun e => match e with UiError msg => Some msg | _ => None end) log.

(** The state in which the loop starts. *)
Definition start : State := {| results_list := []; ui := [UiProgress 0 1] |}.

(** ** Sample documents and machines, used to run the model *)

Module Demo.

Local Open Scope float_scope.

Definition com_error {A} : res A := Raise "com_error".

Definition wrap {A} (a : A) : com A := {| Dispatch := Ok a |}.

(** A property manager that knows the [Material] property only. *)
Definition manager (material : string) : CustomPropertyManagerT :=
  {| Get4 := fun name _ _ _ =>
       if String.eqb name "Material" then Ok (0%Z, material, material)
       else Ok (1%Z, "", "") |}.

Definition configuration (material : string) : ConfigurationT :=
  {| cfg_CustomPropertyManager := Ok (manager material);
     cfg_Name := Ok "Default";
     cfg_Dispatch := Ok {| cfg_GetBox := Ok None |} |}.

(** SI readings 2.5 kg, 0.000003 m^3 and 0.045 m^2. *)
Definition mass_property : MassPropertyT :=
  {| set_UseSystemUnits := fun _ => Ok tt;
     UpdateMassProperties := Ok tt;
     Mass := fun _ => Ok 2.5;
     Volume := fun _ => Ok 0.000003;
     SurfaceArea := fun _ => Ok 0.045 |}.

Definition feature (type_name : string) (definition : res (option (com FeatureDataT)))
  : com FeatureT :=
  wrap {| GetTypeName2 := Ok type_name;
          GetDefinition_call := definition;
          GetDefinition_attr := definition |}.

(** A part described by its [Material] property, the material the API
    reports, its features and its bounding box. *)
Definition part (material : string) (native : res (string * string))
    (features : list (com FeatureT)) (box : res (option (list float))) : ModelT :=
  {| GetActiveConfiguration := Ok (Some (configuration material));
     Extension :=
       Ok {| ext_CustomPropertyManager := fun _ => Ok (manager "");
             CreateMassProperty := Ok mass_property |};
     GetMaterialPropertyName2 := fun _ _ _ => native;
     GetMassProperties := com_error;
     FeatureManager := Ok (wrap {| GetFeatures := fun _ => Ok (Some features) |});
     GetPartBox := fun _ => box;
     GetBox := fun _ => box;
     GetTitle_call := Ok "bracket.SLDPRT";
     GetTitle_attr := com_error |}.

Definition bracket : ModelT :=
  part "SW-Material-Generic" (Ok ("solidworks materials", "AISI 304"))
       [feature "ProfileFeature" (Ok None);
        feature "SheetMetal" (Ok (Some (wrap {| Thickness := Ok 0.0015 |})))]
       (Ok (Some [0; 0; 0; 10; 50; 5])).

(** A machined part: no sheet-metal feature. *)
Definition block : ModelT :=
  part "" (Ok ("", "")) [feature "ProfileFeature" (Ok None)] (Ok None).

(** A part without an active configuration whose document-level
    properties name a material. *)
Definition detached : ModelT :=
  {| GetActiveConfiguration := Ok None;
     Extension :=
       Ok {| ext_CustomPropertyManager := fun _ => Ok (manager "Steel");
             CreateMassProperty := com_error |};
     GetMaterialPropertyName2 := fun _ _ _ => com_error;
     GetMassProperties := Ok (Some [0; 0; 0; 0.000003; 0.045; 2.5]);
     FeatureManager := com_error;
     GetPartBox := fun _ => Ok None;
     GetBox := fun _ => com_error;
     GetTitle_call := com_error;
     GetTitle_attr := Ok "detached.SLDPRT" |}.

(** A sheet-metal part whose feature definition cannot be read. *)
Definition unreadable_sheet : ModelT :=
  part "" com_error [feature "SheetMetal" com_error] com_error.

(** A running SolidWorks that opens every path as [model], except the
    paths that contain [missing] (a falsy handle) or [locked] (the call
    raises). *)
Definition solidworks (model : ModelT) : SldWorksT :=
  {| DocumentVisible := fun _ _ => Ok tt;
     OpenDoc6 := fun path _ _ _ =>
       if contains "locked" path then Raise "file is locked"
       else if contains "missing" path then Ok None
       else Ok (Some (wrap model));
     CloseDoc := fun _ => Ok tt |}.

Definition running (model : ModelT) : Env :=
  {| GetActiveObject := Ok (solidworks model) |}.

Definition not_running : Env :=
  {| GetActiveObject := Raise "Operation unavailable" |}.

Definition all_off : Options :=
  {| get_mass := false; get_dims := false; get_sm := false; get_props := false |}.

Definition all_on : Options :=
  {| get_mass := true; get_dims := true; get_sm := true; get_props := true |}.

End Demo.

(** * Properties *)

(** ** Running statements *)

Section Run.
Context {S : Type}.

Lemma bind_run {A B} (m : Py S A) (f : A -> Py S B) (s : S) :
  (m ≫= f) s =
  match m s with
  | (s', Ok a) => f a s'
  | (s', Raise e) => (s', Raise e)
  end.
Proof. reflexivity. Qed.

Lemma try_except_ok {A} (body handler : Py S A) (s s' : S) (a : A) :
  body s = (s', Ok a) -> try_except body handler s = (s', Ok a).
Proof. intros H. unfold try_except. rewrite H. reflexivity. Qed.

Lemma try_except_raise {A} (body handler : Py S A) (s s' : S) (e : string) :
  body s = (s', Raise e) -> try_except body handler s = handler s'.
Proof. intros H. unfold try_except. rewrite H. reflexivity. Qed.
End Run.

Lemma bind_ext {S A B} (m : Py S A) (f g : A -> Py S B) (s : S) :
  (forall a s', f a s' = g a s') -> (m ≫= f) s = (m ≫= g) s.
Proof.
  intros H. rewrite !bind_run. destruct (m s) as [s' [a | e]]; [apply H | reflexivity].
Qed.

(** ** Statements that cannot raise *)

Section NeverRaises.
Context {S : Type}.

Lemma never_raises_ret {A} (a : A) : never_raises (mret a : Py S A).
Proof. intros s. exists a. reflexivity. Qed.

Lemma never_raises_bind {A B} (m : Py S A) (f : A -> Py S B) :
  never_raises m -> (forall a, never_raises (f a)) -> never_raises (m ≫= f).
Proof.
  intros Hm Hf s. rewrite bind_run. destruct (Hm s) as [a Ha].
  destruct (m s) as [s' [a' | e]]; cbn in Ha; [apply Hf | discriminate].
Qed.

Lemma never_raises_try {A} (body handler : Py S A) :
  never_raises handler -> never_raises (try_except body handler).
Proof.
  intros Hh s. unfold try_except.
  destruct (body s) as [s' [a | e]]; [exists a; reflexivity | apply Hh].
Qed.
End NeverRaises.

Lemma never_raises_setitem k v : never_raises (setitem k v).
Proof. intros row. exists tt. reflexivity. Qed.

Lemma never_raises_unit {S} (c : Py S unit) (s : S) :
  never_raises c -> (c s).2 = Ok tt.
Proof. intros H. destruct (H s) as [[] Ha]. exact Ha. Qed.

Ltac never_raises_step :=
  match goal with
  | |- never_raises (_ ≫= _) => apply never_raises_bind; [| intros]
  | |- never_raises (try_except _ _) => apply never_raises_try
  | |- never_raises (setitem _ _) => apply never_raises_setitem
  | |- never_raises (mret _) => apply never_raises_ret
  | |- never_raises (if ?b then _ else _) => destruct b
  end.

(** None of the four blocks lets an exception out. *)
Lemma props_block_total model doc_type get_props :
  never_raises (props_block model doc_type get_props).
Proof. unfold props_block. repeat never_raises_step. Qed.

Lemma mass_block_total model : never_raises (mass_block model).
Proof. unfold mass_block, mass_zero_fill. repeat never_raises_step. Qed.

Lemma sheet_metal_block_total model : never_raises (sheet_metal_block model).
Proof.
  unfold sheet_metal_block.
  destruct (try_except _ _ _) as [[is_sm thk] r]. repeat never_raises_step.
Qed.

Lemma dims_block_total model doc_type : never_raises (dims_block model doc_type).
Proof. unfold dims_block. repeat never_raises_step. Qed.

Lemma extract_total model doc_type o : never_raises (extract model doc_type o).
Proof.
  unfold extract.
  repeat first
    [ apply props_block_total | apply mass_block_total
    | apply sheet_metal_block_total | apply dims_block_total
    | never_raises_step ].
Qed.

(** ** Which columns a statement can touch *)

Section Preserves.
Context (k : string).

Lemma preserves_ret {A} (a : A) : preserves k (mret a).
Proof. intros row. reflexivity. Qed.

Lemma preserves_call {A} (r : res A) : preserves k (call r).
Proof. intros row. reflexivity. Qed.

Lemma preserves_setitem (k' : string) (v : value) :
  k' ≠ k -> preserves k (setitem k' v).
Proof. intros Hne row. unfold setitem. simpl. apply lookup_insert_ne, Hne. Qed.

Lemma preserves_bind {A B} (m : Py Row A) (f : A -> Py Row B) :
  preserves k m -> (forall a, preserves k (f a)) -> preserves k (m ≫= f).
Proof.
  intros Hm Hf row. rewrite bind_run. specialize (Hm row).
  destruct (m row) as [row' [a | e]]; simpl in *.
  - rewrite Hf. exact Hm.
  - exact Hm.
Qed.

Lemma preserves_try {A} (body handler : Py Row A) :
  preserves k body -> preserves k handler -> preserves k (try_except body handler).
Proof.
  intros Hb Hh row. unfold try_except. specialize (Hb row).
  destruct (body row) as [row' [a | e]]; simpl in *.
  - exact Hb.
  - rewrite Hh. exact Hb.
Qed.
End Preserves.

(** Splits a statement along its binds, handlers and branches, and
    closes the leaves: a [setitem] on another column, a call, a return. *)
Ltac preserves_step :=
  match goal with
  | |- preserves _ (_ ≫= _) => apply preserves_bind; [| intros]
  | |- preserves _ (try_except _ _) => apply preserves_try
  | |- preserves _ (setitem _ _) => apply preserves_setitem; discriminate
  | |- preserves _ (call _) => apply preserves_call
  | |- preserves _ (mret _) => apply preserves_ret
  | |- preserves _ (if ?b then _ else _) => destruct b
  | |- preserves _ (match ?x with _ => _ end) => destruct x
  end.

Ltac preserves_tac := repeat preserves_step.


Ltac split_keys H :=
  repeat (apply not_elem_of_cons in H; destruct H as [? H]).

Lemma props_block_preserves k model doc_type get_props :
  k ∉ props_keys -> preserves k (props_block model doc_type get_props).
Proof.
  intros H. split_keys H. unfold props_block.
  repeat first [ apply preserves_setitem; congruence | preserves_step ].
Qed.

Lemma mass_block_preserves k model :
  k ∉ mass_keys -> preserves k (mass_block model).
Proof.
  intros H. split_keys H. unfold mass_block, mass_primary, mass_legacy, mass_zero_fill.
  repeat first [ apply preserves_setitem; congruence | preserves_step ].
Qed.

Lemma sheet_metal_block_preserves k model :
  k ∉ sheet_metal_keys -> preserves k (sheet_metal_block model).
Proof.
  intros H. split_keys H. unfold sheet_metal_block.
  destruct (try_except _ _ _) as [[is_sm thk] r].
  repeat first [ apply preserves_setitem; congruence | preserves_step ].
Qed.

Lemma dims_block_preserves k model doc_type :
  k ∉ dims_keys -> preserves k (dims_block model doc_type).
Proof.
  intros H. split_keys H. unfold dims_block, dims_try.
  repeat first [ apply preserves_setitem; congruence | preserves_step ].
Qed.

Lemma extract_preserves k model doc_type o :
  k ∉ props_keys -> k ∉ mass_keys -> k ∉ sheet_metal_keys ->
  (get_dims o = true -> k ∉ dims_keys) ->
  preserves k (extract model doc_type o).
Proof.
  intros Hp Hm Hs Hd. unfold extract.
  destruct (get_dims o); [specialize (Hd eq_refl) |];
  repeat first
    [ apply props_block_preserves | apply mass_block_preserves
    | apply sheet_metal_block_preserves | apply dims_block_preserves
    | assumption | preserves_step ].
Qed.

(** ** The batch loop, one file at a time *)

#[local] Arguments extract : simpl never.
#[local] Arguments failed_row : simpl never.
#[local] Arguments new_row : simpl never.
#[local] Arguments doc_type_of : simpl never.
#[local] Arguments basename : simpl never.

(** One turn of the loop files at most one record, the record of its
    file, and exactly one when it ends without an exception; it writes
    the status line and the progress bar. *)
Lemma loop_body_spec swApp o n i f st st' r :
  loop_body swApp o n i f st = (st', r) ->
  exists rows,
    results_list st' = (results_list st ++ rows)%list /\
    ui st' = (ui st ++ [UiStatus (i + 1) n (basename f); UiProgress (i + 1) n])%list /\
    Forall (record_for o f) rows /\
    match r with
    | Ok _ => length rows = 1%nat
    | Raise _ => (length rows <= 1)%nat
    end.
Proof.
  unfold loop_body, mbind, Py_bind, call, show, append, try_except. cbn.
  destruct (DocumentVisible swApp false _) as [[] | e0];
    [| intros [= <- <-]; exists []; cbn; rewrite app_nil_r, <- app_assoc; auto].
  destruct (OpenDoc6 swApp f _ 3 "") as [[raw |] | e1];
    [| intros [= <- <-]; exists [failed_row (basename f)]; cbn;
       rewrite <- app_assoc; repeat split; auto;
       apply Forall_singleton; left; reflexivity
     | intros [= <- <-]; exists []; cbn; rewrite app_nil_r, <- app_assoc; auto].
  destruct (Dispatch raw) as [model | e2];
    [| intros [= <- <-]; exists []; cbn; rewrite app_nil_r, <- app_assoc; auto].
  unfold on_row.
  destruct (extract model _ o _) as [row [[] | e3]] eqn:Hrow;
    [| intros [= <- <-]; exists []; cbn; rewrite app_nil_r, <- app_assoc; auto].
  assert (Hrec : Forall (record_for o f) [row])
    by (apply Forall_singleton; right; exists model; exact Hrow).
  destruct (GetTitle_call model) as [title | e4];
    [| destruct (GetTitle_attr model) as [title | e5];
       [| intros [= <- <-]; exists []; cbn; rewrite app_nil_r, <- app_assoc; auto]].
  all: destruct (CloseDoc swApp title) as [[] | e6];
    [| intros [= <- <-]; exists []; cbn; rewrite app_nil_r, <- app_assoc; auto].
  all: destruct (DocumentVisible swApp true _) as [[] | e7];
    intros [= <- <-]; exists [row]; cbn; rewrite <- app_assoc; auto.
Qed.

(** The loop files the records of a prefix of the file list, in order,
    and of the whole list when no exception leaves it; it never writes an
    error message itself. *)
Lemma for_each_spec swApp o n files : forall i st st' r,
  for_each (loop_body swApp o n) i files st = (st', r) ->
  exists rows evs,
    results_list st' = (results_list st ++ rows)%list /\
    ui st' = (ui st ++ evs)%list /\ errors evs = [] /\
    Forall2 (record_for o) (take (length rows) files) rows /\
    match r with
    | Ok _ => length rows = length files
    | Raise _ => (length rows <= length files)%nat
    end.
Proof.
  induction files as [| f rest IH]; intros i st st' r.
  - intros [= <- <-]. exists [], []. cbn. rewrite !app_nil_r.
    repeat split; constructor.
  - cbn [for_each]. rewrite bind_run.
    destruct (loop_body swApp o n i f st) as [st1 [[] | e]] eqn:Hbody;
      apply loop_body_spec in Hbody as (rows1 & Hres1 & Hui1 & Hrec1 & Hlen1).
    + intros Hrest.
      apply IH in Hrest as (rows2 & evs2 & Hres2 & Hui2 & Hq2 & Hrec2 & Hlen2).
      destruct rows1 as [| row1 [| ? ?]]; try discriminate.
      rewrite Forall_singleton in Hrec1.
      exists (row1 :: rows2),
        ([UiStatus (i + 1) n (basename f); UiProgress (i + 1) n] ++ evs2)%list.
      rewrite Hres2, Hres1, Hui2, Hui1, <- !app_assoc. cbn.
      split; [reflexivity |]. split; [reflexivity |]. split; [| split].
      * exact Hq2.
      * constructor; assumption.
      * destruct r; lia.
    + intros [= <- <-].
      exists rows1, [UiStatus (i + 1) n (basename f); UiProgress (i + 1) n].
      split; [assumption |]. split; [assumption |]. split; [| split].
      * reflexivity.
      * destruct rows1 as [| row1 [| ? ?]]; cbn in *; try lia; [constructor |].
        rewrite Forall_singleton in Hrec1. constructor; [exact Hrec1 | constructor].
      * cbn. lia.
Qed.

Lemma batch_ok swApp o files st :
  for_each (loop_body swApp o (length files)) 0 files start = (st, Ok tt) ->
  batch swApp o files {| results_list := []; ui := [] |} =
  ({| results_list := results_list st;
      ui := ui st ++ [UiSuccess "Batch Processing Complete!"; UiProgressEmpty] |},
   Ok tt).
Proof.
  intros H. unfold batch, try_except_as. rewrite bind_run.
  cbn [show results_list ui app]. fold start.
  rewrite bind_run, H. unfold show, mbind, Py_bind. cbn.
  rewrite <- app_assoc. reflexivity.
Qed.

(** When an exception leaves the loop, the handler reports it and the
    function goes on to [return results_list]. *)
Lemma batch_raise swApp o files st e :
  for_each (loop_body swApp o (length files)) 0 files start = (st, Raise e) ->
  batch swApp o files {| results_list := []; ui := [] |} =
  ({| results_list := results_list st;
      ui := ui st ++ [UiError ("Critical Error: " ++ e)] |}, Ok tt).
Proof.
  intros H. unfold batch, try_except_as. rewrite bind_run.
  cbn [show results_list ui app]. fold start.
  rewrite bind_run, H.
  unfold try_except, call, show, mbind, Py_bind. cbn.
  destruct (DocumentVisible swApp true 1) as [[] | ?]; [| reflexivity].
  destruct (DocumentVisible swApp true 2) as [[] | ?]; reflexivity.
Qed.

(** What [process_files] returns and reports once SolidWorks has
    answered, in terms of the way the loop ends. *)
Lemma process_files_running env swApp files o :
  GetActiveObject env = Ok swApp ->
  exists st r,
    for_each (loop_body swApp o (length files)) 0 files start = (st, r) /\
    process_files env files o =
    (results_list st,
     (ui st ++ match r with
               | Ok _ => [UiSuccess "Batch Processing Complete!"; UiProgressEmpty]
               | Raise e => [UiError ("Critical Error: " ++ e)]
               end)%list).
Proof.
  intros Happ. unfold process_files. rewrite Happ.
  destruct (for_each (loop_body swApp o (length files)) 0 files start)
    as [st [[] | e]] eqn:Hloop; exists st; eexists; (split; [reflexivity |]).
  - rewrite (batch_ok _ _ _ _ Hloop). reflexivity.
  - rewrite (batch_raise _ _ _ _ _ Hloop). reflexivity.
Qed.

Lemma errors_app (l1 l2 : list ui_event) :
  errors (l1 ++ l2) = (errors l1 ++ errors l2)%list.
Proof. apply omap_app. Qed.

(** The records returned are those of a prefix of the file list, and of
    the whole list when no error was reported. *)
Lemma process_files_records env files o :
  let rs := (process_files env files o).1 in
  Forall2 (record_for o) (take (length rs) files) rs /\
  (length rs <= length files)%nat /\
  (errors (process_files env files o).2 = [] -> length rs = length files).
Proof.
  destruct (GetActiveObject env) as [swApp | e0] eqn:Happ.
  - destruct (process_files_running env swApp files o Happ) as (st & r & Hloop & ->).
    apply for_each_spec in Hloop as (rows & evs & Hres & Hui & Hq & Hrec & Hlen).
    cbn [fst snd]. rewrite Hres, Hui. unfold start. cbn [results_list ui].
    rewrite app_nil_l.
    split; [exact Hrec |]. split; [destruct r; lia |].
    rewrite !errors_app, Hq. destruct r; [auto | discriminate].
  - unfold process_files. rewrite Happ. cbn.
    split; [constructor |]. split; [lia | discriminate].
Qed.

Lemma for_each_app body : forall l1 l2 i st,
  for_each body i (l1 ++ l2) st =
  match for_each body i l1 st with
  | (st1, Ok _) => for_each body (i + length l1) l2 st1
  | (st1, Raise e) => (st1, Raise e)
  end.
Proof.
  induction l1 as [| f l1 IH]; intros l2 i st; cbn [for_each app length].
  - rewrite Nat.add_0_r. reflexivity.
  - rewrite !bind_run. destruct (body i f st) as [st1 [[] | e]]; [| reflexivity].
    rewrite IH. replace (S i + length l1)%nat with (i + S (length l1))%nat by lia.
    reflexivity.
Qed.

(** ** What a record holds *)

Lemma failed_row_fields file_name :
  dom (failed_row file_name) = ({["File Name"; "Status"]} : gset string) /\
  failed_row file_name !! "File Name" = Some (VStr file_name) /\
  failed_row file_name !! "Status" = Some (VStr "Failed to Open").
Proof.
  unfold failed_row. split; [| split].
  - rewrite !dom_insert_L, dom_empty_L. set_solver.
  - rewrite lookup_insert_ne by discriminate. apply lookup_insert_eq.
  - apply lookup_insert_eq.
Qed.

Lemma new_row_fields file_name file_path :
  dom (new_row file_name file_path) = ({["File Name"; "Status"; "Path"]} : gset string) /\
  new_row file_name file_path !! "File Name" = Some (VStr file_name) /\
  new_row file_name file_path !! "Status" = Some (VStr "Success") /\
  new_row file_name file_path !! "Path" = Some (VStr file_path).
Proof.
  unfold new_row. split; [| split; [| split]].
  - rewrite !dom_insert_L, dom_empty_L. set_solver.
  - rewrite !lookup_insert_ne by discriminate. apply lookup_insert_eq.
  - rewrite lookup_insert_ne by discriminate. apply lookup_insert_eq.
  - apply lookup_insert_eq.
Qed.

Ltac not_a_block_key :=
  unfold props_keys, mass_keys, sheet_metal_keys, dims_keys; intros H;
  repeat (apply elem_of_cons in H as [H | H]; [discriminate |]);
  apply elem_of_nil in H; exact H.

(** The extraction blocks never touch the three columns of the row
    literal. *)
Lemma extract_keeps_literal model doc_type o file_name file_path row r :
  extract model doc_type o (new_row file_name file_path) = (row, r) ->
  row !! "File Name" = Some (VStr file_name) /\
  row !! "Status" = Some (VStr "Success") /\
  row !! "Path" = Some (VStr file_path).
Proof.
  intros Hrow.
  destruct (new_row_fields file_name file_path) as (_ & Hn & Hs & Hp).
  rewrite <- Hn, <- Hs, <- Hp.
  change row with (row, r).1. rewrite <- Hrow.
  split; [| split]; (apply extract_preserves; [| | | intros _]); not_a_block_key.
Qed.

(** Every record carries the base name of its file; it is the record of
    a failed open, or it says [Success] and carries the path. *)
Lemma record_for_fields o f r :
  record_for o f r ->
  r !! "File Name" = Some (VStr (basename f)) /\
  (r = failed_row (basename f) \/
   r !! "Status" = Some (VStr "Success") /\ r !! "Path" = Some (VStr f)).
Proof.
  intros [-> | [model Hrow]].
  - split; [apply failed_row_fields | left; reflexivity].
  - apply extract_keeps_literal in Hrow as (Hn & Hs & Hp). auto.
Qed.

(** With every option off, all that the blocks do is write an empty
    [Material]. *)
Lemma extract_all_off model doc_type row :
  extract model doc_type
    {| get_mass := false; get_dims := false; get_sm := false; get_props := false |}
    row
  = (<["Material" := VStr ""]> row, Ok tt).
Proof. reflexivity. Qed.

(** ** Claims about the batch result *)

(** C1, as stated, fails: with the four options off, the record of a part
    that opens has a fourth field, [Material]. *)
Lemma all_off_record_has_material :
  exists r : Row,
    (process_files (Demo.running Demo.bracket) ["C:/parts/bracket.SLDPRT"]
                   Demo.all_off).1 = [r] /\
    r !! "Status" = Some (VStr "Success") /\
    dom r ≠ ({["File Name"; "Status"; "Path"]} : gset string).
Proof.
  exists (<["Material" := VStr ""]>
            (new_row "bracket.SLDPRT" "C:/parts/bracket.SLDPRT")).
  split; [vm_compute; reflexivity |]. split; [vm_compute; reflexivity |].
  intros Hdom.
  assert (Hin : "Material" ∈ dom (<["Material" := VStr ""]>
            (new_row "bracket.SLDPRT" "C:/parts/bracket.SLDPRT")))
    by (rewrite dom_insert_L; set_solver).
  rewrite Hdom in Hin. set_solver.
Qed.

(** C1 (amended): in a batch run with the four options off, every record
    that says [Success] holds exactly the four fields File Name, Status,
    Path and Material, the last one empty; File Name and Path are those
    of one of the selected files. *)
Theorem all_options_off_record (env : Env) (files : list string) (r : Row) :
  r ∈ (process_files env files
         {| get_mass := false; get_dims := false;
            get_sm := false; get_props := false |}).1 ->
  r !! "Status" = Some (VStr "Success") ->
  dom r = ({["File Name"; "Status"; "Path"; "Material"]} : gset string) /\
  r !! "Material" = Some (VStr "") /\
  exists f, f ∈ files /\
    r !! "File Name" = Some (VStr (basename f)) /\
    r !! "Path" = Some (VStr f).
Proof.
  intros Hin Hstatus.
  destruct (process_files_records env files
              {| get_mass := false; get_dims := false;
                 get_sm := false; get_props := false |}) as (Hrec & _ & _).
  apply list_elem_of_lookup in Hin as [i Hi].
  destruct (Forall2_lookup_r _ _ _ _ _ Hrec Hi) as (f & Hf & Hfor).
  apply lookup_take_Some in Hf as [Hf _].
  assert (Hfiles : f ∈ files) by (apply list_elem_of_lookup; eauto).
  destruct Hfor as [-> | [model Hrow]].
  - destruct (failed_row_fields (basename f)) as (_ & _ & Hs). congruence.
  - rewrite extract_all_off in Hrow. injection Hrow as <-.
    destruct (new_row_fields (basename f) f) as (Hdom & Hn & _ & Hp).
    split; [| split].
    + rewrite dom_insert_L, Hdom. set_solver.
    + apply lookup_insert_eq.
    + exists f. rewrite !lookup_insert_ne by discriminate. auto.
Qed.

Lemma all_options_off_record_witness :
  let r := <["Material" := VStr ""]>
             (new_row "bracket.SLDPRT" "C:/parts/bracket.SLDPRT") in
  dom r = ({["File Name"; "Status"; "Path"; "Material"]} : gset string) /\
  r !! "Material" = Some (VStr "") /\
  exists f, f ∈ ["C:/parts/bracket.SLDPRT"] /\
    r !! "File Name" = Some (VStr (basename f)) /\
    r !! "Path" = Some (VStr f).
Proof.
  apply (all_options_off_record (Demo.running Demo.bracket)).
  - vm_compute. apply list_elem_of_here.
  - vm_compute. reflexivity.
Defined.

(** C2, as stated, fails: when SolidWorks is not running the function
    returns the empty list whatever was selected. *)
Lemma no_record_when_not_running :
  length (process_files Demo.not_running ["C:/parts/bracket.SLDPRT"] Demo.all_on).1
  ≠ length ["C:/parts/bracket.SLDPRT"].
Proof. vm_compute. discriminate. Qed.

(** C2 (amended): the records returned are those of the first files of
    the list, one per file and in input order (the record at position
    [i] is the record of the file at position [i] and carries its base
    name); there is one for every selected file whenever no error message
    was shown. *)
Theorem one_record_per_file (env : Env) (files : list string) (o : Options) :
  let rs := (process_files env files o).1 in
  (length rs <= length files)%nat /\
  (forall i r, rs !! i = Some r ->
     exists f, files !! i = Some f /\ record_for o f r /\
               r !! "File Name" = Some (VStr (basename f))) /\
  (errors (process_files env files o).2 = [] -> length rs = length files).
Proof.
  destruct (process_files_records env files o) as (Hrec & Hle & Hall).
  split; [exact Hle |]. split; [| exact Hall].
  intros i r Hi.
  destruct (Forall2_lookup_r _ _ _ _ _ Hrec Hi) as (f & Hf & Hfor).
  apply lookup_take_Some in Hf as [Hf _].
  exists f. split; [exact Hf |]. split; [exact Hfor |].
  apply (record_for_fields o f r Hfor).
Qed.

Lemma one_record_per_file_witness :
  let files := ["C:/parts/bracket.sldasm"; "C:/missing.sldprt"] in
  let rs := (process_files (Demo.running Demo.bracket) files Demo.all_on).1 in
  length rs = length files /\
  exists r, rs !! 1%nat = Some r /\ r !! "File Name" = Some (VStr "missing.sldprt").
Proof.
  destruct (one_record_per_file (Demo.running Demo.bracket)
              ["C:/parts/bracket.sldasm"; "C:/missing.sldprt"] Demo.all_on)
    as (_ & Hpos & Hall).
  split.
  - apply Hall. vm_compute. reflexivity.
  - exists (failed_row "missing.sldprt"). split; [vm_compute; reflexivity |].
    destruct (Hpos 1%nat (failed_row "missing.sldprt")) as (f & Hf & _ & Hname).
    + vm_compute. reflexivity.
    + injection Hf as <-. exact Hname.
Defined.

(** C4, as stated, fails: the record gathered before the exception is
    returned, next to the Critical Error message. *)
Lemma partial_results_are_returned :
  let out := process_files (Demo.running Demo.bracket)
               ["C:/parts/bracket.SLDPRT"; "C:/parts/locked.sldprt"] Demo.all_off in
  errors out.2 = ["Critical Error: file is locked"] /\
  out.1 ≠ [] /\
  exists r, out.1 = [r] /\ r !! "File Name" = Some (VStr "bracket.SLDPRT").
Proof.
  split; [vm_compute; reflexivity |]. split.
  - vm_compute. discriminate.
  - exists (<["Material" := VStr ""]>
              (new_row "bracket.SLDPRT" "C:/parts/bracket.SLDPRT")).
    split; vm_compute; reflexivity.
Qed.

(** C4 (amended): if the files [done] have been processed and an
    exception [e] leaves the loop at the next file, [process_files]
    returns the records gathered up to the exception, those of [done]
    among them, and shows the single error message "Critical Error: e". *)
Theorem critical_error_keeps_partial_results
    (env : Env) (swApp : SldWorksT) (o : Options)
    (done : list string) (f : string) (rest : list string)
    (st1 st2 : State) (e : string) :
  let files := (done ++ f :: rest)%list in
  GetActiveObject env = Ok swApp ->
  for_each (loop_body swApp o (length files)) 0 done start = (st1, Ok tt) ->
  loop_body swApp o (length files) (length done) f st1 = (st2, Raise e) ->
  (process_files env files o).1 = results_list st2 /\
  results_list st1 `prefix_of` results_list st2 /\
  length (results_list st1) = length done /\
  errors (process_files env files o).2 = ["Critical Error: " ++ e].
Proof.
  intros files Happ Hdone Hbody.
  assert (Hloop : for_each (loop_body swApp o (length files)) 0 files start
                  = (st2, Raise e)).
  { unfold files at 2. rewrite for_each_app, Hdone. cbn [for_each Nat.add].
    rewrite bind_run, Hbody. reflexivity. }
  destruct (process_files_running env swApp files o Happ) as (st & r & Hloop' & ->).
  rewrite Hloop in Hloop'. injection Hloop' as <- <-. cbn [fst snd].
  apply for_each_spec in Hdone as (rows & evs & Hres & Hui & Hq & _ & Hlen).
  apply for_each_spec in Hloop as (rows2 & evs2 & _ & Hui2 & Hq2 & _ & _).
  apply loop_body_spec in Hbody as (rows1 & Hres1 & _).
  split; [reflexivity |]. split; [| split].
  - exists rows1. exact Hres1.
  - rewrite Hres. cbn. exact Hlen.
  - rewrite Hui2, !errors_app, Hq2. reflexivity.
Qed.

Lemma critical_error_keeps_partial_results_witness :
  let out := process_files (Demo.running Demo.bracket)
               ["C:/parts/bracket.SLDPRT"; "C:/parts/locked.sldprt"] Demo.all_off in
  exists st1 st2,
    out.1 = results_list st2 /\
    results_list st1 `prefix_of` results_list st2 /\
    length (results_list st1) = 1%nat /\
    errors out.2 = ["Critical Error: file is locked"].
Proof.
  pose (swApp := Demo.solidworks Demo.bracket).
  pose (st1 := (for_each (loop_body swApp Demo.all_off 2) 0
                  ["C:/parts/bracket.SLDPRT"] start).1).
  pose (st2 := (loop_body swApp Demo.all_off 2 1 "C:/parts/locked.sldprt" st1).1).
  exists st1, st2.
  apply (critical_error_keeps_partial_results (Demo.running Demo.bracket) swApp
           Demo.all_off ["C:/parts/bracket.SLDPRT"] "C:/parts/locked.sldprt" []
           st1 st2 "file is locked").
  - reflexivity.
  - vm_compute. reflexivity.
  - vm_compute. reflexivity.
Defined.

(** C5: when the open call returns a falsy handle, the turn of the loop
    ends normally after appending a record that holds exactly the two
    fields File Name and Status, the latter "Failed to Open", and the loop
    goes on with the next file. *)
Theorem failed_open_record
    (swApp : SldWorksT) (o : Options) (n i : nat)
    (f : string) (rest : list string) (st : State) :
  DocumentVisible swApp false (doc_type_of f) = Ok tt ->
  OpenDoc6 swApp f (doc_type_of f) 3 "" = Ok None ->
  exists st' r,
    loop_body swApp o n i f st = (st', Ok tt) /\
    results_list st' = (results_list st ++ [r])%list /\
    dom r = ({["File Name"; "Status"]} : gset string) /\
    r !! "File Name" = Some (VStr (basename f)) /\
    r !! "Status" = Some (VStr "Failed to Open") /\
    for_each (loop_body swApp o n) i (f :: rest) st
    = for_each (loop_body swApp o n) (S i) rest st'.
Proof.
  intros Hvis Hopen.
  assert (Hbody : loop_body swApp o n i f st =
                  ({| results_list := results_list st ++ [failed_row (basename f)];
                      ui := (ui st ++ [UiStatus (i + 1) n (basename f)])
                            ++ [UiProgress (i + 1) n] |}, Ok tt)).
  { unfold loop_body, mbind, Py_bind, call, show, append. cbn.
    rewrite Hvis, Hopen. reflexivity. }
  eexists _, (failed_row (basename f)). split; [exact Hbody |].
  destruct (failed_row_fields (basename f)) as (Hdom & Hn & Hs).
  repeat (split; [first [reflexivity | assumption] |]).
  cbn [for_each]. rewrite bind_run, Hbody. reflexivity.
Qed.

Lemma failed_open_record_witness :
  exists st' r,
    loop_body (Demo.solidworks Demo.bracket) Demo.all_on 2 0 "C:/missing.sldprt" start
    = (st', Ok tt) /\
    results_list st' = [r] /\
    dom r = ({["File Name"; "Status"]} : gset string) /\
    r !! "File Name" = Some (VStr "missing.sldprt") /\
    r !! "Status" = Some (VStr "Failed to Open").
Proof.
  destruct (failed_open_record (Demo.solidworks Demo.bracket) Demo.all_on 2 0
              "C:/missing.sldprt" ["C:/parts/bracket.SLDPRT"] start)
    as (st' & r & Hbody & Hres & Hdom & Hn & Hs & _).
  - reflexivity.
  - reflexivity.
  - exists st', r. auto.
Defined.

(** ** Material *)

(** C6: for every kind other than part, [get_material] answers
    "N/A (Assembly)" whatever the document; for a part whose [Material]
    property contains the placeholder "SW-Material" it answers with the
    native lookup (the material of the active configuration when there
    is one, "Not Specified" otherwise), never with the property itself;
    and when the property is empty or the placeholder and the native
    lookup gives nothing, it answers "Not Specified". *)
Theorem get_material_resolution (model : ModelT) :
  (forall doc_type, doc_type ≠ 1 -> get_material model doc_type = "N/A (Assembly)") /\
  (contains "SW-Material" (get_custom_property model "Material") = true ->
   get_material model 1 =
     match native_material model with
     | Ok (Some mat_name) => mat_name
     | _ => "Not Specified"
     end /\
   forall config config_name db_xml mat_name,
     GetActiveConfiguration model = Ok (Some config) ->
     cfg_Name config = Ok config_name ->
     GetMaterialPropertyName2 model config_name "" "" = Ok (db_xml, mat_name) ->
     mat_name ≠ "" ->
     get_material model 1 = mat_name) /\
  (get_custom_property model "Material" = "" \/
   contains "SW-Material" (get_custom_property model "Material") = true ->
   (forall mat_name, native_material model ≠ Ok (Some mat_name)) ->
   get_material model 1 = "Not Specified").
Proof.
  split; [| split].
  - intros doc_type Hkind. unfold get_material.
    destruct (Z.eqb_spec doc_type 1); [contradiction | reflexivity].
  - intros Hsentinel. unfold get_material. cbn [Z.eqb negb Pos.eqb].
    rewrite Hsentinel, andb_false_r. split; [reflexivity |].
    intros config config_name db_xml mat_name Hconf Hname Hnative Hne.
    unfold native_material. rewrite Hconf. cbn. rewrite Hname. cbn.
    rewrite Hnative. cbn. destruct mat_name; [contradiction | reflexivity].
  - intros Hprop Hnative. unfold get_material. cbn [Z.eqb negb Pos.eqb].
    assert (Hskip : truthy (get_custom_property model "Material")
                    && negb (contains "SW-Material"
                               (get_custom_property model "Material")) = false).
    { destruct Hprop as [-> | ->]; [reflexivity | apply andb_false_r]. }
    rewrite Hskip.
    destruct (native_material model) as [[mat_name |] | e] eqn:Hn;
      [exfalso; apply (Hnative mat_name); reflexivity | reflexivity | reflexivity].
Qed.

Lemma get_material_resolution_witness :
  get_material Demo.bracket 2 = "N/A (Assembly)" /\
  get_custom_property Demo.bracket "Material" = "SW-Material-Generic" /\
  get_material Demo.bracket 1 = "AISI 304" /\
  get_material Demo.unreadable_sheet 1 = "Not Specified".
Proof.
  destruct (get_material_resolution Demo.bracket) as (Hasm & Hpart & _).
  destruct (get_material_resolution Demo.unreadable_sheet) as (_ & _ & Hnone).
  split; [apply Hasm; discriminate |]. split; [reflexivity |]. split.
  - destruct Hpart as [_ Hnative]; [reflexivity |].
    apply (Hnative (Demo.configuration "SW-Material-Generic") "Default"
                   "solidworks materials"); [reflexivity .. | discriminate].
  - apply Hnone; [left; reflexivity | discriminate].
Defined.

(** ** Document kind *)

(** C10: the kind of a file is 1 exactly when the lowercased extension
    of its path is ".sldprt" and 2 for every other path; it is the kind
    the open call is made with (what that call raises leaves the loop). *)
Theorem doc_type_by_extension (file_path : string) :
  (doc_type_of file_path = 1 <-> lower (splitext file_path).2 = ".sldprt") /\
  (doc_type_of file_path = 2 <-> lower (splitext file_path).2 ≠ ".sldprt") /\
  (forall swApp o n i st e,
     DocumentVisible swApp false (doc_type_of file_path) = Ok tt ->
     OpenDoc6 swApp file_path (doc_type_of file_path) 3 "" = Raise e ->
     (loop_body swApp o n i file_path st).2 = Raise e).
Proof.
  unfold doc_type_of. split; [| split].
  - destruct (String.eqb_spec (lower (splitext file_path).2) ".sldprt");
      split; intros; first [reflexivity | assumption | discriminate | contradiction].
  - destruct (String.eqb_spec (lower (splitext file_path).2) ".sldprt");
      split; intros; first [reflexivity | assumption | discriminate | contradiction].
  - intros swApp o n i st e Hvis Hopen.
    unfold loop_body, mbind, Py_bind, call, show. cbn.
    unfold doc_type_of. rewrite Hvis, Hopen. reflexivity.
Qed.

Lemma doc_type_by_extension_witness :
  doc_type_of "C:/parts/bracket.SLDPRT" = 1 /\
  doc_type_of "C:/asm/top.sldasm" = 2 /\
  doc_type_of "C:/parts/notes.step" = 2 /\
  doc_type_of "C:/parts/.sldprt" = 2.
Proof.
  split; [apply (doc_type_by_extension "C:/parts/bracket.SLDPRT"); reflexivity |].
  split; [apply (doc_type_by_extension "C:/asm/top.sldasm"); discriminate |].
  split; [apply (doc_type_by_extension "C:/parts/notes.step"); discriminate |].
  apply (doc_type_by_extension "C:/parts/.sldprt"); discriminate.
Defined.

(** ** Mass properties *)

#[local] Arguments round : simpl never.
#[local] Arguments sorted : simpl never.

(** When every call of the primary path answers, the three readings are
    scaled by 1000, 1e9 and 1e6 and rounded to two decimals. *)
Lemma mass_primary_ok model ext mass_prop (m v a : float) (row : Row) :
  Extension model = Ok ext ->
  CreateMassProperty ext = Ok mass_prop ->
  set_UseSystemUnits mass_prop false = Ok tt ->
  UpdateMassProperties mass_prop = Ok tt ->
  Mass mass_prop false = Ok m ->
  Volume mass_prop false = Ok v ->
  SurfaceArea mass_prop false = Ok a ->
  mass_block model row =
  (<["Surface Area (mm^2)" := VFloat (round (a * 1000000) 2)]>
     (<["Volume (mm^3)" := VFloat (round (v * 1000000000) 2)]>
        (<["Mass (g)" := VFloat (round (m * 1000) 2)]> row)), Ok tt).
Proof.
  intros Hext Hcreate Hunits Hupdate Hm Hv Ha.
  unfold mass_block. apply try_except_ok.
  unfold mass_primary, mbind, Py_bind, call, setitem.
  rewrite Hext. cbn [res_bind]. rewrite Hcreate, Hunits, Hupdate, Hm, Hv, Ha.
  reflexivity.
Qed.

Lemma sample_conversions :
  round (2.5 * 1000) 2 = 2500%float /\
  round (0.000003 * 1000000000) 2 = 3000%float /\
  round (0.045 * 1000000) 2 = 45000%float.
Proof. repeat split; vm_compute; reflexivity. Qed.

Lemma VFloat_inj (x y : float) : VFloat x = VFloat y -> (x =? y)%float = (y =? y)%float.
Proof. intros [= ->]. reflexivity. Qed.

(** C8, as stated, fails: 0.000003 m^3 times 1e9 is 3000 mm^3, and that
    is what the primary path records for the sample readings (2.5 kg,
    0.000003 m^3, 0.045 m^2), not 3000000. *)
Lemma sample_volume_is_3000 :
  let row := (mass_block Demo.bracket ∅).1 in
  Mass Demo.mass_property false = Ok 2.5%float /\
  Volume Demo.mass_property false = Ok 0.000003%float /\
  SurfaceArea Demo.mass_property false = Ok 0.045%float /\
  row !! "Volume (mm^3)" = Some (VFloat 3000) /\
  row !! "Volume (mm^3)" ≠ Some (VFloat 3000000).
Proof.
  cbv zeta. split; [reflexivity |]. split; [reflexivity |]. split; [reflexivity |].
  assert (Hvol : (mass_block Demo.bracket ∅).1 !! "Volume (mm^3)" = Some (VFloat 3000))
    by (vm_compute; reflexivity).
  split; [exact Hvol |]. rewrite Hvol.
  intros H. assert (H' : VFloat 3000 = VFloat 3000000) by congruence.
  apply VFloat_inj in H'. vm_compute in H'. discriminate.
Qed.

(** C8 (amended): on the primary path, the SI readings 2.5 kg,
    0.000003 m^3 and 0.045 m^2 are recorded as Mass 2500.0 g, Volume
    3000.0 mm^3 and Surface Area 45000.0 mm^2. *)
Theorem mass_conversion_sample model ext mass_prop (row : Row) :
  Extension model = Ok ext ->
  CreateMassProperty ext = Ok mass_prop ->
  set_UseSystemUnits mass_prop false = Ok tt ->
  UpdateMassProperties mass_prop = Ok tt ->
  Mass mass_prop false = Ok 2.5%float ->
  Volume mass_prop false = Ok 0.000003%float ->
  SurfaceArea mass_prop false = Ok 0.045%float ->
  mass_block model row =
  (<["Surface Area (mm^2)" := VFloat 45000]>
     (<["Volume (mm^3)" := VFloat 3000]>
        (<["Mass (g)" := VFloat 2500]> row)), Ok tt).
Proof.
  intros Hext Hcreate Hunits Hupdate Hm Hv Ha.
  rewrite (mass_primary_ok _ _ _ _ _ _ row Hext Hcreate Hunits Hupdate Hm Hv Ha).
  destruct sample_conversions as (-> & -> & ->). reflexivity.
Qed.

Lemma mass_conversion_sample_witness :
  mass_block Demo.bracket ∅ =
  (<["Surface Area (mm^2)" := VFloat 45000]>
     (<["Volume (mm^3)" := VFloat 3000]>
        (<["Mass (g)" := VFloat 2500]> ∅)), Ok tt).
Proof.
  eapply mass_conversion_sample; reflexivity.
Defined.

(** ** Floats: order and sorting *)

Section FloatOrder.
Local Open Scope float_scope.

Lemma SFcompare_swap (x y : spec_float) :
  SFcompare y x = CompOpp <$> SFcompare x y.
Proof.
  destruct x as [sx | sx | | sx mx ex], y as [sy | sy | | sy my ey]; cbn;
    try reflexivity;
    try (destruct sx; reflexivity); try (destruct sy; reflexivity);
    try (destruct sx, sy; reflexivity).
  destruct sx, sy; cbn; try reflexivity;
    rewrite (Z.compare_antisym ex ey); destruct (ex ?= ey)%Z; cbn;
    try reflexivity;
    rewrite (Pos.compare_cont_antisym mx my Eq); cbn;
    destruct (Pos.compare_cont Eq mx my); reflexivity.
Qed.

Lemma not_nan_compare (a b : float) :
  not_nan a -> not_nan b ->
  exists c, SFcompare (Prim2SF a) (Prim2SF b) = Some c.
Proof.
  unfold not_nan, is_nan. rewrite !FloatAxioms.eqb_spec. unfold SFeqb.
  destruct (Prim2SF a), (Prim2SF b); cbn; try discriminate; eauto.
Qed.

(** Numbers are totally ordered: what is not below is above or equal. *)
Lemma ltb_false_le (a b : float) :
  not_nan a -> not_nan b -> (a <? b) = false -> float_le b a.
Proof.
  intros Ha Hb. unfold float_le.
  rewrite FloatAxioms.ltb_spec, FloatAxioms.leb_spec. unfold SFltb, SFleb.
  rewrite (SFcompare_swap (Prim2SF a) (Prim2SF b)).
  destruct (not_nan_compare a b Ha Hb) as [c ->].
  destruct c; cbn; congruence.
Qed.

Lemma ltb_true_le (a b : float) : (a <? b) = true -> float_le a b.
Proof.
  unfold float_le.
  rewrite FloatAxioms.ltb_spec, FloatAxioms.leb_spec. unfold SFltb, SFleb.
  destruct (SFcompare _ _) as [[] |]; congruence.
Qed.

Lemma SFleb_trans (x y z : spec_float) :
  SFleb x y = true -> SFleb y z = true -> SFleb x z = true.
Proof.
  unfold SFleb.
  destruct x as [sx | sx | | sx mx ex], y as [sy | sy | | sy my ey],
           z as [sz | sz | | sz mz ez]; cbn;
    try discriminate; try reflexivity;
    try (destruct sx; try discriminate; try reflexivity);
    try (destruct sy; try discriminate; try reflexivity);
    try (destruct sz; try discriminate; try reflexivity).
  all: change (Pos.compare_cont Eq) with Pos.compare.
  all: destruct (Z.compare_spec ex ey), (Z.compare_spec ey ez),
         (Z.compare_spec ex ez);
    cbn; try discriminate; try reflexivity; try lia; subst.
  all: destruct (Pos.compare_spec mx my), (Pos.compare_spec my mz),
         (Pos.compare_spec mx mz);
    cbn; try discriminate; try reflexivity; try lia.
Qed.

Lemma float_le_trans (a b c : float) : float_le a b -> float_le b c -> float_le a c.
Proof. unfold float_le. rewrite !FloatAxioms.leb_spec. apply SFleb_trans. Qed.

Lemma insort_perm (x : float) (l : list float) : insort x l ≡ₚ x :: l.
Proof.
  induction l as [| y l IH]; cbn; [reflexivity |].
  destruct (x <? y); [reflexivity |].
  rewrite IH. apply Permutation_swap.
Qed.

(** [sorted] rearranges its argument. *)
Lemma sorted_perm (l : list float) : sorted l ≡ₚ l.
Proof.
  unfold sorted. rewrite <- (app_nil_l l) at 2.
  generalize (@nil float) as acc.
  induction l as [| x l IH]; intros acc; cbn [fold_left].
  - rewrite app_nil_r. reflexivity.
  - rewrite IH, insort_perm. apply Permutation_middle.
Qed.

Lemma insort_hd (x y : float) (l : list float) :
  not_nan x -> not_nan y -> (x <? y) = false ->
  HdRel float_le y l -> HdRel float_le y (insort x l).
Proof.
  intros Hx Hy Hxy Hhd. destruct l as [| z l]; cbn.
  - constructor. apply ltb_false_le; assumption.
  - destruct (x <? z).
    + constructor. apply ltb_false_le; assumption.
    + constructor. inversion Hhd; assumption.
Qed.

Lemma insort_sorted (x : float) (l : list float) :
  not_nan x -> Forall not_nan l ->
  Sorted float_le l -> Sorted float_le (insort x l).
Proof.
  intros Hx Hl Hs. induction l as [| y l IH]; cbn.
  - repeat constructor.
  - apply Forall_cons in Hl as [Hy Hl]. inversion Hs as [| ? ? Hs' Hhd]; subst.
    destruct (x <? y) eqn:Hxy.
    + constructor; [exact Hs |]. constructor. apply ltb_true_le, Hxy.
    + constructor; [apply IH; assumption |].
      apply insort_hd; assumption.
Qed.

(** On numbers, [sorted] is ascending. *)
Lemma sorted_ascending (l : list float) :
  Forall not_nan l -> Sorted float_le (sorted l).
Proof.
  unfold sorted. intros Hl.
  assert (Hacc : Forall not_nan [] /\ Sorted float_le (@nil float))
    by (split; constructor).
  revert Hacc. generalize (@nil float) as acc.
  induction l as [| x l IH]; intros acc [Hnan Hs]; cbn [fold_left]; [exact Hs |].
  apply Forall_cons in Hl as [Hx Hl]. apply IH; [exact Hl |]. split.
  - rewrite insort_perm. constructor; assumption.
  - apply insort_sorted; assumption.
Qed.

(** Sorting three numbers: smallest, middle, largest. *)
Lemma sorted_three (a b c : float) :
  not_nan a -> not_nan b -> not_nan c ->
  exists h w l,
    sorted [a; b; c] = [h; w; l] /\ [h; w; l] ≡ₚ [a; b; c] /\
    float_le h w /\ float_le w l /\ float_le h l.
Proof.
  intros Ha Hb Hc.
  pose proof (sorted_perm [a; b; c]) as Hperm.
  pose proof (Permutation_length Hperm) as Hlen.
  assert (Hasc : Sorted float_le (sorted [a; b; c]))
    by (apply sorted_ascending; repeat constructor; assumption).
  destruct (sorted [a; b; c]) as [| h [| w [| l [| ? ?]]]]; try discriminate.
  exists h, w, l. split; [reflexivity |]. split; [exact Hperm |].
  inversion Hasc as [| ? ? Hasc' Hhw]; subst.
  inversion Hasc' as [| ? ? _ Hwl]; subst.
  inversion Hhw; inversion Hwl; subst.
  split; [assumption |]. split; [assumption |].
  eapply float_le_trans; eassumption.
Qed.
End FloatOrder.

(** ** Dimensions *)

(** With a box of six numbers or more, the three extents are sorted and
    written largest first. *)
Lemma dims_block_box model doc_type (row : Row)
    (x0 x1 x2 x3 x4 x5 : float) (more : list float) (h w l : float) :
  get_box model doc_type = Ok (Some (x0 :: x1 :: x2 :: x3 :: x4 :: x5 :: more)) ->
  sorted [abs (x3 - x0); abs (x4 - x1); abs (x5 - x2)]%float = [h; w; l] ->
  dims_block model doc_type row =
  (<["Height (mm)" := VFloat (round (h * 1000) 2)]>
     (<["Width (mm)" := VFloat (round (w * 1000) 2)]>
        (<["Length (mm)" := VFloat (round (l * 1000) 2)]> row)), Ok tt).
Proof.
  intros Hbox Hsorted. unfold dims_block. apply try_except_ok.
  unfold dims_try, mbind, Py_bind, call, setitem. rewrite Hbox.
  set (box := x0 :: x1 :: x2 :: x3 :: x4 :: x5 :: more).
  change (extent box 3 0) with (Ok (abs (x3 - x0))%float).
  change (extent box 4 1) with (Ok (abs (x4 - x1))%float).
  change (extent box 5 2) with (Ok (abs (x5 - x2))%float).
  cbv iota beta. rewrite Hsorted. reflexivity.
Qed.

(** Without such a box (the query raised, or gave nothing, or too few
    numbers) the block leaves the row as it was and does not raise. *)
Lemma dims_block_no_box model doc_type (row : Row) :
  (forall x0 x1 x2 x3 x4 x5 more,
     get_box model doc_type ≠ Ok (Some (x0 :: x1 :: x2 :: x3 :: x4 :: x5 :: more))) ->
  dims_block model doc_type row = (row, Ok tt).
Proof.
  intros Hnone. unfold dims_block, try_except, dims_try, mbind, Py_bind, call.
  destruct (get_box model doc_type) as [[box |] | e]; [| reflexivity | reflexivity].
  destruct box as [| x0 [| x1 [| x2 [| x3 [| x4 [| x5 more]]]]]];
    try reflexivity.
  exfalso. apply (Hnone x0 x1 x2 x3 x4 x5 more). reflexivity.
Qed.

Lemma sample_extents :
  sorted [abs (10 - 0); abs (50 - 0); abs (5 - 0)]%float = [5; 10; 50]%float /\
  round (5 * 1000) 2 = 5000%float /\
  round (10 * 1000) 2 = 10000%float /\
  round (50 * 1000) 2 = 50000%float.
Proof. repeat split; vm_compute; reflexivity. Qed.

(** C7: for a box of six numbers, the row receives the three absolute
    per-axis differences, ranked by magnitude and each times 1000 and
    rounded to two decimals: Height from the smallest, Width from the
    middle one, Length from the largest; corners (0,0,0)-(10,50,5) give
    Height 5000, Width 10000 and Length 50000.  (Numbers: the three
    differences are not NaN.) *)
Theorem bounding_box_ranking model doc_type (row : Row)
    (x0 x1 x2 x3 x4 x5 : float) :
  get_box model doc_type = Ok (Some [x0; x1; x2; x3; x4; x5]) ->
  let dx := abs (x3 - x0)%float in
  let dy := abs (x4 - x1)%float in
  let dz := abs (x5 - x2)%float in
  not_nan dx -> not_nan dy -> not_nan dz ->
  (exists h w l,
     [h; w; l] ≡ₚ [dx; dy; dz] /\
     float_le h w /\ float_le w l /\ float_le h l /\
     dims_block model doc_type row =
     (<["Height (mm)" := VFloat (round (h * 1000) 2)]>
        (<["Width (mm)" := VFloat (round (w * 1000) 2)]>
           (<["Length (mm)" := VFloat (round (l * 1000) 2)]> row)), Ok tt)) /\
  ([x0; x1; x2; x3; x4; x5] = [0; 0; 0; 10; 50; 5]%float ->
   dims_block model doc_type row =
   (<["Height (mm)" := VFloat 5000]>
      (<["Width (mm)" := VFloat 10000]>
         (<["Length (mm)" := VFloat 50000]> row)), Ok tt)).
Proof.
  intros Hbox dx dy dz Hx Hy Hz. split.
  - destruct (sorted_three dx dy dz Hx Hy Hz)
      as (h & w & l & Hsorted & Hperm & Hhw & Hwl & Hhl).
    exists h, w, l. repeat (split; [assumption |]).
    apply (dims_block_box _ _ _ _ _ _ _ _ _ _ _ _ _ Hbox Hsorted).
  - intros [= -> -> -> -> -> ->].
    destruct sample_extents as (Hsorted & Hh & Hw & Hl).
    rewrite (dims_block_box _ _ _ _ _ _ _ _ _ _ _ _ _ Hbox Hsorted).
    rewrite Hh, Hw, Hl. reflexivity.
Qed.

Lemma bounding_box_ranking_witness :
  dims_block Demo.bracket 1 ∅ =
  (<["Height (mm)" := VFloat 5000]>
     (<["Width (mm)" := VFloat 10000]>
        (<["Length (mm)" := VFloat 50000]> ∅)), Ok tt).
Proof.
  apply (bounding_box_ranking Demo.bracket 1 ∅ 0 0 0 10 50 5);
    reflexivity.
Defined.

(** When the box cannot be had, extracting with the dimensions on is
    extracting with the dimensions off. *)
Lemma extract_without_box model doc_type o (row : Row) :
  (forall x0 x1 x2 x3 x4 x5 more,
     get_box model doc_type ≠ Ok (Some (x0 :: x1 :: x2 :: x3 :: x4 :: x5 :: more))) ->
  extract model doc_type o row = extract model doc_type (without_dims o) row.
Proof.
  intros Hnone. unfold extract, without_dims. cbn [get_mass get_dims get_sm get_props].
  destruct (get_dims o); [| reflexivity].
  apply bind_ext; intros [] row1. apply bind_ext; intros [] row2.
  apply bind_ext; intros [] row3. apply dims_block_no_box, Hnone.
Qed.

Lemma dims_keys_not_other k :
  k ∈ dims_keys ->
  (k ∉ props_keys) /\ (k ∉ mass_keys) /\ (k ∉ sheet_metal_keys) /\
  forall file_name file_path, new_row file_name file_path !! k = None.
Proof.
  unfold dims_keys. intros Hk.
  repeat (apply elem_of_cons in Hk as [-> | Hk];
          [repeat split; try not_a_block_key; intros; reflexivity |]).
  apply elem_of_nil in Hk. contradiction.
Qed.

(** C9: with the dimensions option on, if the bounding box of the opened
    document cannot be had (the query raises, or gives nothing, or fewer
    than six numbers), the row has no Length, Width or Height; the row is
    the one the other blocks build with the option off, no exception
    comes out of the extraction, and the whole turn of the loop is the
    turn with the option off. *)
Theorem dims_failure_leaves_fields_absent
    (swApp : SldWorksT) (o : Options) (n i : nat) (f : string) (st : State)
    (raw_model : com ModelT) (model : ModelT) :
  get_dims o = true ->
  OpenDoc6 swApp f (doc_type_of f) 3 "" = Ok (Some raw_model) ->
  Dispatch raw_model = Ok model ->
  (forall x0 x1 x2 x3 x4 x5 more,
     get_box model (doc_type_of f)
     ≠ Ok (Some (x0 :: x1 :: x2 :: x3 :: x4 :: x5 :: more))) ->
  let out := extract model (doc_type_of f) o (new_row (basename f) f) in
  out.1 !! "Length (mm)" = None /\
  out.1 !! "Width (mm)" = None /\
  out.1 !! "Height (mm)" = None /\
  out.2 = Ok tt /\
  out = extract model (doc_type_of f) (without_dims o) (new_row (basename f) f) /\
  loop_body swApp o n i f st = loop_body swApp (without_dims o) n i f st.
Proof.
  intros Hdims Hopen Hdisp Hnone out.
  assert (Hout : out = extract model (doc_type_of f) (without_dims o)
                         (new_row (basename f) f))
    by (apply extract_without_box, Hnone).
  assert (Habsent : forall k, k ∈ dims_keys -> out.1 !! k = None).
  { intros k Hk. destruct (dims_keys_not_other k Hk) as (Hp & Hm & Hs & Hnew).
    rewrite Hout, <- (Hnew (basename f) f).
    apply extract_preserves; [assumption .. | discriminate]. }
  split; [apply Habsent; unfold dims_keys; set_solver |].
  split; [apply Habsent; unfold dims_keys; set_solver |].
  split; [apply Habsent; unfold dims_keys; set_solver |].
  split; [apply never_raises_unit, extract_total |]. split; [exact Hout |].
  unfold loop_body, mbind, Py_bind, call, on_row. cbn.
  destruct (DocumentVisible swApp false _) as [[] | e0]; [| reflexivity].
  rewrite Hopen, Hdisp. fold out. rewrite <- Hout. reflexivity.
Qed.

Lemma dims_failure_leaves_fields_absent_witness :
  let f := "C:/parts/sheet.sldprt" in
  let out := extract Demo.unreadable_sheet 1 Demo.all_on (new_row "sheet.sldprt" f) in
  out.1 !! "Length (mm)" = None /\
  out.1 !! "Width (mm)" = None /\
  out.1 !! "Height (mm)" = None /\
  out.2 = Ok tt /\
  out.1 !! "Mass (g)" = Some (VFloat 2500).
Proof.
  destruct (dims_failure_leaves_fields_absent
              (Demo.solidworks Demo.unreadable_sheet) Demo.all_on 1 0
              "C:/parts/sheet.sldprt" start
              (Demo.wrap Demo.unreadable_sheet) Demo.unreadable_sheet)
    as (Hl & Hw & Hh & Hok & _).
  - reflexivity.
  - reflexivity.
  - reflexivity.
  - intros x0 x1 x2 x3 x4 x5 more. vm_compute. discriminate.
  - repeat (split; [assumption |]). vm_compute. reflexivity.
Defined.

(** ** Sheet metal *)

Lemma reaches_nil : ~ reaches_sheet_metal [].
Proof.
  intros (pre & f_obj & f_dyn & post & Heq & _).
  destruct pre; discriminate.
Qed.

Lemma reaches_here f_obj f_dyn rest :
  Dispatch f_obj = Ok f_dyn -> GetTypeName2 f_dyn = Ok "SheetMetal" ->
  reaches_sheet_metal (f_obj :: rest).
Proof.
  intros Hd Ht. exists [], f_obj, f_dyn, rest. repeat split; auto.
Qed.

Lemma reaches_blocked f_obj rest e :
  Dispatch f_obj = Raise e -> ~ reaches_sheet_metal (f_obj :: rest).
Proof.
  intros Hd (pre & f' & f_dyn & post & Heq & Hpre & Hd' & _).
  destruct pre as [| p pre]; injection Heq as <- _.
  - congruence.
  - apply Forall_cons in Hpre as [(? & Hp & _) _]. congruence.
Qed.

Lemma reaches_past f_obj rest :
  passed_over f_obj ->
  reaches_sheet_metal (f_obj :: rest) <-> reaches_sheet_metal rest.
Proof.
  intros Hpast. split.
  - intros (pre & f' & f_dyn & post & Heq & Hpre & Hd & Ht).
    destruct pre as [| p pre]; injection Heq as <- Heq.
    + destruct Hpast as (f_dyn' & Hd' & Hne). congruence.
    + apply Forall_cons in Hpre as [_ Hpre]. exists pre, f', f_dyn, post. auto.
  - intros (pre & f' & f_dyn & post & -> & Hpre & Hd & Ht).
    exists (f_obj :: pre), f', f_dyn, post. repeat split; auto.
Qed.

(** How the feature loop leaves its two variables: [is_sm] tells
    whether a [SheetMetal] feature was reached, and [thk] is still 0.0
    when none was or when an exception ended the loop. *)
Lemma scan_features_outcome all_feats : forall is_sm thk r,
  scan_features all_feats (false, 0%float) = ((is_sm, thk), r) ->
  (is_sm = true <-> reaches_sheet_metal all_feats) /\
  (is_sm = false -> thk = 0%float) /\
  (forall e, r = Raise e -> thk = 0%float).
Proof.
  induction all_feats as [| f_obj rest IH]; intros is_sm thk r.
  - intros [= <- <- <-]. split; [| split]; try discriminate; auto.
    split; [discriminate | intros H; destruct (reaches_nil H)].
  - cbn [scan_features]. unfold mbind, Py_bind, call, try_except.
    destruct (Dispatch f_obj) as [f_dyn | e0] eqn:Hd.
    2:{ intros [= <- <- <-]. split; [| split]; auto.
        split; [discriminate | intros H; destruct (reaches_blocked _ _ _ Hd H)]. }
    assert (Hpast : GetTypeName2 f_dyn ≠ Ok "SheetMetal" ->
                    scan_features rest (false, 0%float) = (is_sm, thk, r) ->
                    (is_sm = true <-> reaches_sheet_metal (f_obj :: rest)) /\
                    (is_sm = false -> thk = 0%float) /\
                    (forall e, r = Raise e -> thk = 0%float)).
    { intros Hne Hrest. apply IH in Hrest as (Hiff & Hzero & Hraise).
      split; [| split]; auto.
      rewrite reaches_past; [exact Hiff | exists f_dyn; auto]. }
    destruct (GetTypeName2 f_dyn) as [tn | e1] eqn:Ht; cbn [String.eqb].
    2:{ apply Hpast. discriminate. }
    destruct (String.eqb_spec tn "SheetMetal") as [-> | Hne].
    2:{ apply Hpast. congruence. }
    assert (Hyes : forall t r', (true, t, r') = (is_sm, thk, r) ->
                   (forall e, r' = Raise e -> t = 0%float) ->
                   (is_sm = true <-> reaches_sheet_metal (f_obj :: rest)) /\
                   (is_sm = false -> thk = 0%float) /\
                   (forall e, r = Raise e -> thk = 0%float)).
    { intros t r' [= <- <- <-] Hr. split; [| split]; [| discriminate | exact Hr].
      split; [intros _; apply (reaches_here _ _ _ Hd Ht) | reflexivity]. }
    unfold set_is_sm, set_thk. cbn.
    destruct (GetDefinition_call f_dyn) as [[fd |] | e2].
    + destruct (Dispatch fd) as [fd_dyn | e3];
        [destruct (Thickness fd_dyn) as [t | e4] |];
        intros H; apply (Hyes _ _ H); intros; first [discriminate | reflexivity].
    + intros H; apply (Hyes _ _ H); intros; first [discriminate | reflexivity].
    + destruct (GetDefinition_attr f_dyn) as [[fd |] | e2'].
      * destruct (Dispatch fd) as [fd_dyn | e3];
          [destruct (Thickness fd_dyn) as [t | e4] |];
          intros H; apply (Hyes _ _ H); intros; first [discriminate | reflexivity].
      * intros H; apply (Hyes _ _ H); intros; first [discriminate | reflexivity].
      * intros H; apply (Hyes _ _ H); intros; first [discriminate | reflexivity].
Qed.

Lemma sheet_metal_try_outcome model is_sm thk r :
  sheet_metal_try model (false, 0%float) = ((is_sm, thk), r) ->
  (is_sm = true <-> finds_sheet_metal model) /\
  (is_sm = false -> thk = 0%float) /\
  (forall e, r = Raise e -> thk = 0%float).
Proof.
  unfold sheet_metal_try, mbind at 1, Py_bind, call.
  assert (Hnot : (false, 0%float, r) = (is_sm, thk, r) ->
                 ~ finds_sheet_metal model ->
                 (is_sm = true <-> finds_sheet_metal model) /\
                 (is_sm = false -> thk = 0%float) /\
                 (forall e, r = Raise e -> thk = 0%float)).
  { intros [= <- <-] Hno. split; [| split]; auto.
    split; [discriminate | contradiction]. }
  destruct (FeatureManager model) as [fm | e0] eqn:Hfm; cbn [mbind res_bind].
  2:{ intros [= <- <- <-]. apply Hnot; [reflexivity |].
      intros (? & ? & ? & ? & _). congruence. }
  destruct (Dispatch fm) as [fm_dyn | e1] eqn:Hd.
  2:{ intros [= <- <- <-]. apply Hnot; [reflexivity |].
      intros (? & ? & ? & ? & ? & _). congruence. }
  unfold mbind, Py_bind.
  destruct (GetFeatures fm_dyn false) as [[all_feats |] | e2] eqn:Hfeats.
  - assert (Hsame : finds_sheet_metal model <-> reaches_sheet_metal all_feats).
    { split.
      - intros (? & ? & ? & ? & ? & ? & Hr). congruence.
      - intros Hr. exists fm, fm_dyn, all_feats. auto. }
    destruct all_feats as [| f_obj rest].
    + intros [= <- <- <-]. apply Hnot; [reflexivity |].
      rewrite Hsame. apply reaches_nil.
    + intros Hscan. rewrite Hsame. apply scan_features_outcome, Hscan.
  - intros [= <- <- <-]. apply Hnot; [reflexivity |].
    intros (? & ? & ? & ? & ? & ? & _). congruence.
  - intros [= <- <- <-]. apply Hnot; [reflexivity |].
    intros (? & ? & ? & ? & ? & ? & _). congruence.
Qed.

Lemma round_zero_thickness : round (0 * 1000) 3 = 0%float.
Proof. vm_compute. reflexivity. Qed.

(** What the block writes, from the way the [try] body ends. *)
Lemma sheet_metal_block_run model (row : Row) is_sm thk r :
  sheet_metal_try model (false, 0%float) = ((is_sm, thk), r) ->
  sheet_metal_block model row =
  (<["Thickness (mm)" :=
       if is_sm then VFloat (round (thk * 1000) 3) else VInt 0]>
     (<["Is Sheet Metal" := VBool is_sm]> row), Ok tt).
Proof.
  intros Htry. unfold sheet_metal_block, try_except. rewrite Htry.
  destruct r; reflexivity.
Qed.

(** C3, as stated, fails: when reading the definition of the
    [SheetMetal] feature raises, the record still says that the part is
    sheet metal. *)
Lemma unreadable_sheet_is_reported_sheet_metal :
  let row := (sheet_metal_block Demo.unreadable_sheet ∅).1 in
  (sheet_metal_try Demo.unreadable_sheet (false, 0%float)).2 = Raise "com_error" /\
  row !! "Is Sheet Metal" = Some (VBool true) /\
  row !! "Is Sheet Metal" ≠ Some (VBool false).
Proof.
  cbv zeta. split; [reflexivity |].
  assert (H : (sheet_metal_block Demo.unreadable_sheet ∅).1 !! "Is Sheet Metal"
              = Some (VBool true)) by (vm_compute; reflexivity).
  split; [exact H |]. rewrite H. discriminate.
Qed.

(** C3 (amended): the sheet-metal inspection never raises.  If it does
    not reach a feature whose type name is "SheetMetal" (there is none,
    or a step failed before one was reached), the record says
    Is Sheet Metal = False and Thickness = 0.  If it reaches one and a
    later step fails (reading its definition or its thickness), the record
    says Is Sheet Metal = True and Thickness = 0.0. *)
Theorem sheet_metal_report (model : ModelT) (row : Row) :
  let row' := (sheet_metal_block model row).1 in
  (sheet_metal_block model row).2 = Ok tt /\
  (~ finds_sheet_metal model ->
   row' !! "Is Sheet Metal" = Some (VBool false) /\
   row' !! "Thickness (mm)" = Some (VInt 0)) /\
  (finds_sheet_metal model ->
   forall e, (sheet_metal_try model (false, 0%float)).2 = Raise e ->
   row' !! "Is Sheet Metal" = Some (VBool true) /\
   row' !! "Thickness (mm)" = Some (VFloat 0)).
Proof.
  destruct (sheet_metal_try model (false, 0%float)) as [[is_sm thk] r] eqn:Htry.
  rewrite (sheet_metal_block_run model row is_sm thk r Htry). cbn [fst snd].
  apply sheet_metal_try_outcome in Htry as (Hiff & Hzero & Hraise).
  split; [reflexivity |]. split.
  - intros Hno. destruct is_sm; [destruct Hno; apply Hiff; reflexivity |].
    split; [| apply lookup_insert_eq].
    rewrite lookup_insert_ne by discriminate. apply lookup_insert_eq.
  - intros Hyes e ->. apply Hiff in Hyes as ->.
    rewrite (Hraise e eq_refl), round_zero_thickness.
    split; [| apply lookup_insert_eq].
    rewrite lookup_insert_ne by discriminate. apply lookup_insert_eq.
Qed.

Lemma sheet_metal_report_witness :
  let row' := (sheet_metal_block Demo.unreadable_sheet ∅).1 in
  let row'' := (sheet_metal_block Demo.block ∅).1 in
  (row' !! "Is Sheet Metal" = Some (VBool true) /\
   row' !! "Thickness (mm)" = Some (VFloat 0)) /\
  (row'' !! "Is Sheet Metal" = Some (VBool false) /\
   row'' !! "Thickness (mm)" = Some (VInt 0)).
Proof.
  destruct (sheet_metal_report Demo.unreadable_sheet ∅) as (_ & _ & Hyes).
  destruct (sheet_metal_report Demo.block ∅) as (_ & Hno & _).
  split.
  - apply (Hyes) with (e := "com_error").
    + eexists _, _, _. split; [reflexivity |]. split; [reflexivity |].
      split; [reflexivity |].
      eapply (reaches_here _ _ []); reflexivity.
    + reflexivity.
  - apply Hno.
    intros (fm & fm_dyn & all_feats & [= <-] & [= <-] & [= <-] & Hreach).
    apply reaches_past in Hreach; [exact (reaches_nil Hreach) |].
    eexists. split; [reflexivity | discriminate].
Defined.

(** * Further properties of the script *)

(** ** Reading a custom property *)

Lemma truthy_not_empty (s : string) : truthy s = true -> s ≠ "".
Proof. destruct s; [discriminate | discriminate]. Qed.




(** X3: when the lookup in the active configuration fails (no
    configuration, no property manager, or [Get4] raises) the result is
    empty: the document-level properties are not consulted, whatever
    they hold. *)
Theorem get_custom_property_configuration_failure
    (model : ModelT) (prop_name : string) :
  (forall config, GetActiveConfiguration model = Ok (Some config) ->
     forall mgr, cfg_CustomPropertyManager config = Ok mgr ->
       forall e, Get4 mgr prop_name false "" "" = Raise e ->
       get_custom_property model prop_name = "") /\
  (forall config, GetActiveConfiguration model = Ok (Some config) ->
     forall e, cfg_CustomPropertyManager config = Raise e ->
     get_custom_property model prop_name = "") /\
  (GetActiveConfiguration model = Ok None ->
   get_custom_property model prop_name = "") /\
  (forall e, GetActiveConfiguration model = Raise e ->
   get_custom_property model prop_name = "").
Proof.
  unfold get_custom_property. repeat split.
  - intros config -> mgr Hmgr e Hget. cbn. rewrite Hmgr. cbn. rewrite Hget.
    reflexivity.
  - intros config -> e Hmgr. cbn. rewrite Hmgr. reflexivity.
  - intros ->. reflexivity.
  - intros e ->. reflexivity.
Qed.

Lemma get_custom_property_configuration_failure_witness :
  get_custom_property Demo.detached "Material" = "".
Proof.
  apply (get_custom_property_configuration_failure Demo.detached "Material").
  reflexivity.
Defined.

(** ** Material *)

Lemma native_material_visible model mat_name :
  native_material model = Ok (Some mat_name) -> mat_name ≠ "".
Proof.
  unfold native_material.
  destruct (GetActiveConfiguration model) as [[config |] | e0]; cbn; try discriminate.
  destruct (cfg_Name config) as [config_name | e1]; cbn; try discriminate.
  destruct (GetMaterialPropertyName2 model config_name "" "")
    as [[db_xml name] | e2]; cbn; try discriminate.
  destruct (truthy name) eqn:Hname; [| discriminate].
  intros [= <-]. apply truthy_not_empty, Hname.
Qed.

Lemma get_material_visible (model : ModelT) (doc_type : Z) :
  get_material model doc_type ≠ "".
Proof.
  unfold get_material. destruct (negb (doc_type =? 1)%Z); [discriminate |].
  destruct (truthy (get_custom_property model "Material")) eqn:Hvis; cbn.
  - destruct (contains "SW-Material" _); cbn.
    + destruct (native_material model) as [[mat_name |] | e] eqn:Hn;
        [apply (native_material_visible model), Hn | discriminate ..].
    + apply truthy_not_empty, Hvis.
  - destruct (native_material model) as [[mat_name |] | e] eqn:Hn;
      [apply (native_material_visible model), Hn | discriminate ..].
Qed.

(** X4: [get_material] never answers with the empty string; and for a
    part whose [Material] property is visible and free of the
    placeholder "SW-Material", it answers with that property, whatever
    the native lookup would give. *)
Theorem get_material_never_empty (model : ModelT) (doc_type : Z) :
  get_material model doc_type ≠ "" /\
  (truthy (get_custom_property model "Material") = true ->
   contains "SW-Material" (get_custom_property model "Material") = false ->
   get_material model 1 = get_custom_property model "Material").
Proof.
  split; [apply get_material_visible |].
  intros Hvis Hfree. unfold get_material. cbn [Z.eqb Pos.eqb negb].
  rewrite Hvis, Hfree. reflexivity.
Qed.

Lemma get_material_never_empty_witness :
  get_material (Demo.part "6061 Alloy" Demo.com_error [] Demo.com_error) 1
  = "6061 Alloy".
Proof.
  apply (get_material_never_empty
           (Demo.part "6061 Alloy" Demo.com_error [] Demo.com_error) 1);
    reflexivity.
Defined.

(** ** The columns of a record *)

#[local] Set Warnings "-clear-no-such-hyp".

Lemma bind_total {S B} (c : Py S unit) (f : unit -> Py S B) (s : S) :
  never_raises c -> (c ≫= f) s = f tt (c s).1.
Proof.
  intros Hc. rewrite bind_run. pose proof (never_raises_unit c s Hc) as Hok.
  destruct (c s) as [s' r]. cbn in Hok. subst r. reflexivity.
Qed.












(** ** Mass properties: the fallbacks *)

(** X6: when the primary path raises, at whatever step, and the legacy
    array has six entries or more, the three columns hold the converted
    entries 5 (mass), 3 (volume) and 4 (area) of the array; nothing the
    primary path wrote before it raised is left. *)
Theorem mass_legacy_fallback
    (model : ModelT) (row : Row) (e : string)
    (vals : list float) (v a m : float) :
  (mass_primary model row).2 = Raise e ->
  GetMassProperties model = Ok (Some vals) ->
  vals !! 3%nat = Some v -> vals !! 4%nat = Some a -> vals !! 5%nat = Some m ->
  let row' := (mass_block model row).1 in
  row' !! "Mass (g)" = Some (VFloat (round (m * 1000) 2)) /\
  row' !! "Volume (mm^3)" = Some (VFloat (round (v * 1000000000) 2)) /\
  row' !! "Surface Area (mm^2)" = Some (VFloat (round (a * 1000000) 2)) /\
  (mass_block model row).2 = Ok tt.
Proof.
  intros Hprimary Hvals H3 H4 H5. unfold mass_block.
  destruct (mass_primary model row) as [row1 r1] eqn:Hrun. cbn in Hprimary. subst r1.
  rewrite (try_except_raise _ _ _ _ _ Hrun).
  assert (Hlegacy : mass_legacy model row1 =
    (<["Mass (g)" := VFloat (round (m * 1000) 2)]>
       (<["Surface Area (mm^2)" := VFloat (round (a * 1000000) 2)]>
          (<["Volume (mm^3)" := VFloat (round (v * 1000000000) 2)]> row1)), Ok tt)).
  { unfold mass_legacy, mbind, Py_bind, call, setitem, getitem. rewrite Hvals.
    destruct vals as [| x0 vals']; [discriminate |].
    rewrite H3, H4, H5. reflexivity. }
  rewrite (try_except_ok _ _ _ _ _ Hlegacy). cbn [fst snd].
  repeat split; simplify_map_eq; reflexivity.
Qed.

Lemma mass_legacy_fallback_witness :
  let row' := (mass_block Demo.detached ∅).1 in
  row' !! "Mass (g)" = Some (VFloat 2500) /\
  row' !! "Volume (mm^3)" = Some (VFloat 3000) /\
  row' !! "Surface Area (mm^2)" = Some (VFloat 45000).
Proof.
  destruct (mass_legacy_fallback Demo.detached ∅ "com_error"
              [0; 0; 0; 0.000003; 0.045; 2.5]%float
              0.000003%float 0.045%float 2.5%float)
    as (Hm & Hv & Ha & _); try reflexivity.
  destruct sample_conversions as (Em & Ev & Ea).
  rewrite Em in Hm. rewrite Ev in Hv. rewrite Ea in Ha. auto.
Defined.

(** X7: when the primary path raises and the legacy array cannot be
    used (the access raises, or gives nothing, or fewer than six
    entries), the three columns are the integer 0, also those the
    primary path or the legacy path had written before failing. *)
Theorem mass_zero_fill_fallback (model : ModelT) (row : Row) (e : string) :
  (mass_primary model row).2 = Raise e ->
  (forall vals, GetMassProperties model = Ok (Some vals) -> vals !! 5%nat = None) ->
  let row' := (mass_block model row).1 in
  row' !! "Mass (g)" = Some (VInt 0) /\
  row' !! "Volume (mm^3)" = Some (VInt 0) /\
  row' !! "Surface Area (mm^2)" = Some (VInt 0) /\
  (mass_block model row).2 = Ok tt.
Proof.
  intros Hprimary Hshort. unfold mass_block.
  destruct (mass_primary model row) as [row1 r1] eqn:Hrun. cbn in Hprimary. subst r1.
  rewrite (try_except_raise _ _ _ _ _ Hrun).
  assert (Hzero : forall row2 : Row,
    let out := mass_zero_fill row2 in
    out.1 !! "Mass (g)" = Some (VInt 0) /\
    out.1 !! "Volume (mm^3)" = Some (VInt 0) /\
    out.1 !! "Surface Area (mm^2)" = Some (VInt 0) /\ out.2 = Ok tt).
  { intros row2. unfold mass_zero_fill, mbind, Py_bind, setitem. cbn.
    repeat split; simplify_map_eq; reflexivity. }
  unfold try_except, mass_legacy, mbind, Py_bind, call, setitem, getitem.
  destruct (GetMassProperties model) as [[vals |] | e1] eqn:Hvals;
    [| apply Hzero ..].
  specialize (Hshort vals eq_refl).
  destruct vals as [| x0 vals']; [apply Hzero |].
  destruct ((x0 :: vals') !! 3%nat); [| apply Hzero].
  destruct ((x0 :: vals') !! 4%nat); [| apply Hzero].
  rewrite Hshort. apply Hzero.
Qed.

Lemma mass_zero_fill_fallback_witness :
  let model := Demo.part "" Demo.com_error [] Demo.com_error in
  let broken :=
    {| GetActiveConfiguration := GetActiveConfiguration model;
       Extension := Demo.com_error;
       GetMaterialPropertyName2 := GetMaterialPropertyName2 model;
       GetMassProperties := Ok (Some [1; 2; 3; 4]%float);
       FeatureManager := FeatureManager model;
       GetPartBox := GetPartBox model;
       GetBox := GetBox model;
       GetTitle_call := GetTitle_call model;
       GetTitle_attr := GetTitle_attr model |} in
  let row' := (mass_block broken ∅).1 in
  row' !! "Mass (g)" = Some (VInt 0) /\
  row' !! "Volume (mm^3)" = Some (VInt 0) /\
  row' !! "Surface Area (mm^2)" = Some (VInt 0).
Proof.
  intros model broken.
  destruct (mass_zero_fill_fallback broken ∅ "com_error") as (Hm & Hv & Ha & _).
  - reflexivity.
  - intros vals [= <-]. reflexivity.
  - auto.
Defined.

(** ** Sheet metal: the first match *)

(** The loop goes past the features it passes over, with its variables
    unchanged. *)
Lemma scan_features_past pre rest (s : bool * float) :
  Forall passed_over pre ->
  scan_features (pre ++ rest) s = scan_features rest s.
Proof.
  induction 1 as [| f_obj pre (f_dyn & Hd & Hne) _ IH]; [reflexivity |].
  cbn [app scan_features]. unfold mbind at 1, Py_bind at 1, call at 1.
  rewrite Hd. unfold mbind at 1, Py_bind at 1, try_except at 1, call at 1.
  destruct (GetTypeName2 f_dyn) as [tn | e]; cbn [mret Py_ret].
  - destruct (String.eqb_spec tn "SheetMetal") as [-> | _]; [congruence | exact IH].
  - exact IH.
Qed.

(** X8: the first feature whose type name is "SheetMetal" decides.  When
    its definition and thickness can be read, the record says
    Is Sheet Metal = True and gives the thickness times 1000, rounded to
    three decimals; the features after it are not looked at. *)
Theorem sheet_metal_first_match
    (model : ModelT) (row : Row)
    (fm : com FeatureManagerT) (fm_dyn : FeatureManagerT)
    (pre post : list (com FeatureT)) (f_obj : com FeatureT) (f_dyn : FeatureT)
    (fd : com FeatureDataT) (fd_dyn : FeatureDataT) (thk : float) :
  FeatureManager model = Ok fm ->
  Dispatch fm = Ok fm_dyn ->
  GetFeatures fm_dyn false = Ok (Some (pre ++ f_obj :: post)%list) ->
  Forall passed_over pre ->
  Dispatch f_obj = Ok f_dyn ->
  GetTypeName2 f_dyn = Ok "SheetMetal" ->
  GetDefinition_call f_dyn = Ok (Some fd) ->
  Dispatch fd = Ok fd_dyn ->
  Thickness fd_dyn = Ok thk ->
  sheet_metal_block model row =
  (<["Thickness (mm)" := VFloat (round (thk * 1000) 3)]>
     (<["Is Sheet Metal" := VBool true]> row), Ok tt).
Proof.
  intros Hfm Hd Hfeats Hpre Hf Htn Hdef Hfd Hthk.
  apply (sheet_metal_block_run model row true thk (Ok tt)).
  unfold sheet_metal_try, mbind at 1, Py_bind at 1, call at 1.
  rewrite Hfm. cbn [mbind res_bind]. rewrite Hd.
  unfold mbind at 1, Py_bind at 1, call at 1. rewrite Hfeats.
  assert (Hscan : scan_features (pre ++ f_obj :: post) (false, 0%float)
                  = ((true, thk), Ok tt)).
  { rewrite (scan_features_past pre _ _ Hpre). cbn [scan_features].
    unfold mbind, Py_bind, call, try_except, set_is_sm, set_thk.
    rewrite Hf, Htn. cbn. rewrite Hdef, Hfd, Hthk. reflexivity. }
  destruct (pre ++ f_obj :: post)%list eqn:Hl; [| exact Hscan].
  destruct pre; discriminate.
Qed.

Lemma sheet_metal_first_match_witness :
  sheet_metal_block Demo.bracket ∅ =
  (<["Thickness (mm)" := VFloat 1.5]> (<["Is Sheet Metal" := VBool true]> ∅), Ok tt).
Proof.
  assert (Hround : round (0.0015 * 1000) 3 = 1.5%float) by (vm_compute; reflexivity).
  rewrite <- Hround.
  eapply (sheet_metal_first_match Demo.bracket ∅ _ _
            [Demo.feature "ProfileFeature" (Ok None)] []);
    try reflexivity.
  apply Forall_singleton. eexists. split; [reflexivity | discriminate].
Defined.

(** ** The Material column *)

Lemma extract_material (model : ModelT) (doc_type : Z) (o : Options) (row : Row) :
  (extract model doc_type o row).1 !! "Material" =
  Some (VStr (if get_props o && (doc_type =? 1)%Z
              then get_material model doc_type else "")).
Proof.
  unfold extract.
  rewrite (bind_total _ _ _ (props_block_total model doc_type (get_props o))).
  set (row1 := (props_block model doc_type (get_props o) row).1).
  assert (Hrow1 : row1 !! "Material" =
                  Some (VStr (if get_props o && (doc_type =? 1)%Z
                              then get_material model doc_type else ""))).
  { subst row1. unfold props_block, mbind, Py_bind, setitem.
    destruct (get_props o), (doc_type =? 1)%Z; cbn; apply lookup_insert_eq. }
  rewrite <- Hrow1.
  assert (Htail : preserves "Material"
    ((if get_mass o then mass_block model else mret tt);;
     (if get_sm o && (doc_type =? 1)%Z then sheet_metal_block model else mret tt);;
     (if get_dims o then dims_block model doc_type else mret tt))).
  { repeat first
      [ apply mass_block_preserves; not_a_block_key
      | apply sheet_metal_block_preserves; not_a_block_key
      | apply dims_block_preserves; not_a_block_key
      | preserves_step ]. }
  apply Htail.
Qed.

(** X9: every record that says [Success] has a Material column holding
    a string.  It is the empty string when the properties option is off
    and also, with the option on, for every file that is not a part: the
    answer "N/A (Assembly)" of [get_material] is never asked for.  For a
    part with the option on it is never empty. *)
Theorem success_record_material
    (env : Env) (files : list string) (o : Options) (r : Row) :
  r ∈ (process_files env files o).1 ->
  r !! "Status" = Some (VStr "Success") ->
  exists f material,
    f ∈ files /\
    r !! "Path" = Some (VStr f) /\
    r !! "Material" = Some (VStr material) /\
    (get_props o = false \/ doc_type_of f ≠ 1 -> material = "") /\
    (get_props o = true -> doc_type_of f = 1 -> material ≠ "").
Proof.
  intros Hin Hstatus.
  destruct (process_files_records env files o) as (Hrec & _ & _).
  apply list_elem_of_lookup in Hin as [i Hi].
  destruct (Forall2_lookup_r _ _ _ _ _ Hrec Hi) as (f & Hf & Hfor).
  apply lookup_take_Some in Hf as [Hf _].
  assert (Hfiles : f ∈ files) by (apply list_elem_of_lookup; eauto).
  destruct Hfor as [-> | [model Hrow]].
  - destruct (failed_row_fields (basename f)) as (_ & _ & Hs). congruence.
  - destruct (extract_keeps_literal _ _ _ _ _ _ _ Hrow) as (_ & _ & Hpath).
    pose proof (extract_material model (doc_type_of f) o
                  (new_row (basename f) f)) as Hmat.
    rewrite Hrow in Hmat. cbn [fst] in Hmat.
    eexists f, _. split; [exact Hfiles |]. split; [exact Hpath |].
    split; [exact Hmat |]. split.
    + intros [-> | Hkind]; [reflexivity |].
      destruct (Z.eqb_spec (doc_type_of f) 1); [contradiction |].
      rewrite andb_false_r. reflexivity.
    + intros -> ->. cbn [andb Z.eqb Pos.eqb]. apply get_material_visible.
Qed.

Lemma success_record_material_witness :
  exists r,
    (process_files (Demo.running Demo.bracket) ["C:/asm/top.sldasm"] Demo.all_on).1
    = [r] /\
    r !! "Material" = Some (VStr "").
Proof.
  pose (r := (extract Demo.bracket 2 Demo.all_on
                (new_row "top.sldasm" "C:/asm/top.sldasm")).1).
  assert (Hout : (process_files (Demo.running Demo.bracket)
                    ["C:/asm/top.sldasm"] Demo.all_on).1 = [r])
    by (vm_compute; reflexivity).
  exists r. split; [exact Hout |].
  destruct (success_record_material (Demo.running Demo.bracket)
              ["C:/asm/top.sldasm"] Demo.all_on r)
    as (f & material & Hf & _ & Hmat & Hempty & _).
  - rewrite Hout. apply list_elem_of_here.
  - vm_compute. reflexivity.
  - apply list_elem_of_singleton in Hf. subst f.
    rewrite Hmat, Hempty; [reflexivity |]. right. discriminate.
Defined.

(** ** What the page shows *)

Lemma for_each_events swApp o n files : forall i st st' r,
  (i + length files <= n)%nat ->
  for_each (loop_body swApp o n) i files st = (st', r) ->
  exists evs, ui st' = (ui st ++ evs)%list /\ Forall (loop_event n) evs.
Proof.
  induction files as [| f rest IH]; intros i st st' r Hn.
  - intros [= <- <-]. exists []. rewrite app_nil_r. split; [reflexivity | constructor].
  - cbn [for_each length] in *. rewrite bind_run.
    assert (Hturn : Forall (loop_event n)
              [UiStatus (i + 1) n (basename f); UiProgress (i + 1) n])
      by (repeat constructor; lia).
    destruct (loop_body swApp o n i f st) as [st1 [[] | e]] eqn:Hbody;
      apply loop_body_spec in Hbody as (rows1 & _ & Hui1 & _).
    + intros Hrest. apply IH in Hrest as (evs & Hui & Hevs); [| lia].
      eexists. rewrite Hui, Hui1, <- app_assoc. split; [reflexivity |].
      apply Forall_app. split; assumption.
    + intros [= <- <-]. eexists. split; [exact Hui1 | exact Hturn].
Qed.

(** The whole log of a run on a machine where SolidWorks answers. *)
Lemma process_files_log env swApp files o :
  GetActiveObject env = Ok swApp ->
  exists evs,
    Forall (loop_event (length files)) evs /\
    ((process_files env files o).2 =
       (UiProgress 0 1 :: evs
        ++ [UiSuccess "Batch Processing Complete!"; UiProgressEmpty])%list \/
     exists e, (process_files env files o).2 =
       (UiProgress 0 1 :: evs ++ [UiError ("Critical Error: " ++ e)])%list).
Proof.
  intros Happ.
  destruct (process_files_running env swApp files o Happ) as (st & r & Hloop & ->).
  apply for_each_events in Hloop as (evs & Hui & Hevs); [| cbn; lia].
  exists evs. split; [exact Hevs |]. cbn [snd]. rewrite Hui. cbn.
  destruct r as [[] | e]; [left; reflexivity | right; exists e; reflexivity].
Qed.

Lemma loop_event_in_range n e : loop_event n e -> progress_in_range e.
Proof. destruct e; cbn; try tauto. lia. Qed.

Lemma loop_events_quiet n evs :
  Forall (loop_event n) evs ->
  errors evs = [] /\ forall msg, UiSuccess msg ∉ evs.
Proof.
  induction 1 as [| e evs He _ [IHe IHs]]; [split; [reflexivity | set_solver] |].
  destruct e; cbn in He; try contradiction.
  - split; [exact IHe |]. intros msg [Heq | Hin]%elem_of_cons;
      [discriminate | exact (IHs msg Hin)].
  - split; [exact IHe |]. intros msg [Heq | Hin]%elem_of_cons;
      [discriminate | exact (IHs msg Hin)].
Qed.

(** X10: whatever the machine and the selection, every value given to
    the progress bar is a fraction with a positive denominator that does
    not exceed 1: the bar is never asked for more than 100 percent and
    the division by the number of files is never a division by zero. *)
Theorem progress_stays_in_range (env : Env) (files : list string) (o : Options) :
  Forall progress_in_range (process_files env files o).2.
Proof.
  destruct (GetActiveObject env) as [swApp | e0] eqn:Happ.
  - destruct (process_files_log env swApp files o Happ)
      as (evs & Hevs & [-> | [e ->]]);
      (constructor; [cbn; lia |]); apply Forall_app; split;
      try (eapply Forall_impl; [exact Hevs | apply loop_event_in_range]);
      repeat constructor.
  - unfold process_files. rewrite Happ. repeat constructor.
Qed.

(** X11: a run ends in exactly one of two ways: with the message
    "Batch Processing Complete!" and no error message, or with a single
    error message and no success message. *)
Theorem success_or_single_error (env : Env) (files : list string) (o : Options) :
  let log := (process_files env files o).2 in
  (errors log = [] /\ UiSuccess "Batch Processing Complete!" ∈ log) \/
  (exists msg, errors log = [msg] /\ forall m, UiSuccess m ∉ log).
Proof.
  destruct (GetActiveObject env) as [swApp | e0] eqn:Happ.
  - destruct (process_files_log env swApp files o Happ)
      as (evs & Hevs & [Hlog | [e Hlog]]);
      destruct (loop_events_quiet _ _ Hevs) as [Hq Hs]; cbv zeta; rewrite Hlog.
    + left. split.
      * change (UiProgress 0 1 :: ?l) with ([UiProgress 0 1] ++ l)%list.
        rewrite !errors_app, Hq. reflexivity.
      * set_solver.
    + right. exists ("Critical Error: " ++ e). split.
      * change (UiProgress 0 1 :: ?l) with ([UiProgress 0 1] ++ l)%list.
        rewrite !errors_app, Hq. reflexivity.
      * intros m [Heq | Hin]%elem_of_cons; [discriminate |].
        apply elem_of_app in Hin as [Hin | Hin]; [exact (Hs m Hin) |].
        apply list_elem_of_singleton in Hin. discriminate.
  - right. unfold process_files. rewrite Happ. cbn. eexists. split; [reflexivity |].
    intros m Hin. apply list_elem_of_singleton in Hin. discriminate.
Qed.

(** ** Closing the document *)

(** X12: the row of a file is appended after its document is closed and
    before visibility is restored.  If the close call raises, the row
    that was extracted is not in the list and the exception leaves the
    loop; if closing works and restoring visibility raises, the row is in
    the list although the exception leaves the loop. *)
Theorem row_is_appended_after_close
    (swApp : SldWorksT) (o : Options) (n i : nat) (f : string) (st : State)
    (raw_model : com ModelT) (model : ModelT) (title e : string) :
  DocumentVisible swApp false (doc_type_of f) = Ok tt ->
  OpenDoc6 swApp f (doc_type_of f) 3 "" = Ok (Some raw_model) ->
  Dispatch raw_model = Ok model ->
  GetTitle_call model = Ok title ->
  let row := (extract model (doc_type_of f) o (new_row (basename f) f)).1 in
  (CloseDoc swApp title = Raise e ->
   exists st', loop_body swApp o n i f st = (st', Raise e) /\
               results_list st' = results_list st) /\
  (CloseDoc swApp title = Ok tt ->
   DocumentVisible swApp true (doc_type_of f) = Raise e ->
   exists st', loop_body swApp o n i f st = (st', Raise e) /\
               results_list st' = (results_list st ++ [row])%list).
Proof.
  intros Hvis Hopen Hdisp Htitle row.
  pose proof (never_raises_unit _ (new_row (basename f) f)
                (extract_total model (doc_type_of f) o)) as Hok.
  unfold loop_body, mbind, Py_bind, call, show, append, on_row, try_except. cbn.
  rewrite Hvis, Hopen, Hdisp. subst row.
  destruct (extract model (doc_type_of f) o (new_row (basename f) f)) as [row r].
  cbn in Hok. subst r. rewrite Htitle. cbn [fst]. split.
  - intros ->. eexists. split; reflexivity.
  - intros -> ->. eexists. split; reflexivity.
Qed.

Lemma row_is_appended_after_close_witness :
  let swApp :=
    {| DocumentVisible := fun _ _ => Ok tt;
       OpenDoc6 := fun _ _ _ _ => Ok (Some (Demo.wrap Demo.bracket));
       CloseDoc := fun _ => Raise "document is busy" |} in
  exists st',
    loop_body swApp Demo.all_off 1 0 "C:/parts/bracket.SLDPRT" start
    = (st', Raise "document is busy") /\
    results_list st' = [].
Proof.
  intros swApp.
  apply (row_is_appended_after_close swApp Demo.all_off 1 0
           "C:/parts/bracket.SLDPRT" start (Demo.wrap Demo.bracket) Demo.bracket
           "bracket.SLDPRT" "document is busy");
    reflexivity.
Defined.

(** ** The bounding box of a part *)



(** ** Ordering the columns of the table *)

Lemma desired_order_NoDup : NoDup desired_order.
Proof.
  apply (bool_decide_eq_true_1 (NoDup desired_order)). vm_compute. reflexivity.
Qed.

Lemma filter_none {A} (P : A -> Prop) `{!forall x, Decision (P x)} (l : list A) :
  Forall (fun x => ~ P x) l -> filter P l = [].
Proof.
  induction 1 as [| x l Hx _ IH]; [reflexivity |].
  rewrite filter_cons_False by exact Hx. exact IH.
Qed.

Lemma order_columns_elem (columns : list string) (c : string) :
  c ∈ order_columns columns <-> c ∈ columns.
Proof.
  unfold order_columns. rewrite elem_of_app, !list_elem_of_filter.
  destruct (decide (c ∈ desired_order)); tauto.
Qed.

(** X14: ordering the columns loses none and invents none: for a table
    whose columns are distinct the result is a rearrangement of them.
    The columns of the preferred list come first, in the order of that
    list, the others after them in the order of the table; ordering an
    ordered list changes nothing. *)
Theorem order_columns_rearranges (columns : list string) :
  (forall c, c ∈ order_columns columns <-> c ∈ columns) /\
  (NoDup columns -> order_columns columns ≡ₚ columns) /\
  (exists listed others,
     order_columns columns = (listed ++ others)%list /\
     listed `sublist_of` desired_order /\
     others `sublist_of` columns /\
     Forall (fun c => c ∉ desired_order) others) /\
  order_columns (order_columns columns) = order_columns columns.
Proof.
  split; [apply order_columns_elem |]. split; [| split].
  - intros Hnd. apply NoDup_Permutation; [| exact Hnd | apply order_columns_elem].
    unfold order_columns. apply NoDup_app. split; [| split].
    + apply NoDup_filter, desired_order_NoDup.
    + intros c [_ Hin]%list_elem_of_filter [Hout _]%list_elem_of_filter.
      contradiction.
    + apply NoDup_filter, Hnd.
  - exists (filter (fun c => c ∈ columns) desired_order),
           (filter (fun c => c ∉ desired_order) columns).
    split; [reflexivity |]. split; [apply sublist_filter |].
    split; [apply sublist_filter |].
    apply Forall_forall. intros c [Hout _]%list_elem_of_filter. exact Hout.
  - transitivity (filter (fun c => c ∈ columns) desired_order
                  ++ filter (fun c => c ∉ desired_order) columns)%list;
      [| reflexivity].
    unfold order_columns at 1. f_equal.
    + apply list_filter_iff. intros c. apply order_columns_elem.
    + unfold order_columns. rewrite filter_app.
      rewrite (filter_none (fun c => c ∉ desired_order)), app_nil_l.
      * apply list_filter_filter_l. tauto.
      * apply Forall_forall. intros c [_ Hin]%list_elem_of_filter Hout.
        contradiction.
Qed.

Lemma order_columns_rearranges_witness :
  order_columns ["File Name"; "Status"; "Path"; "Material"; "Mass (g)"]
  ≡ₚ ["File Name"; "Status"; "Path"; "Material"; "Mass (g)"] /\
  order_columns ["File Name"; "Status"; "Path"; "Material"; "Mass (g)"]
  = ["File Name"; "Material"; "Mass (g)"; "Status"; "Path"].
Proof.
  split.
  - apply (order_columns_rearranges
             ["File Name"; "Status"; "Path"; "Material"; "Mass (g)"]).
    apply (bool_decide_eq_true_1 (NoDup _)). vm_compute. reflexivity.
  - vm_compute. reflexivity.
Defined.
